(** * TileDB-SOMA: metadata store and pairwise matrix group

    A shallow embedding of two parts of the Python API:

    - the scalar metadata store exercised by
      [apis/python/tests/test_metadata.py] (module [Metadata]);
    - [AnnotationPairwiseMatrixGroup] from
      [apis/python/src/tiledbsc/annotation_pairwise_matrix_group.py]
      (module [PairwiseGroup]).

    Python exceptions are values of a [result] type; methods that mutate
    an object or the storage are state transformers that return the state
    reached together with the result, also when they raise. *)

From Stdlib Require Import ZArith Lia List.
From Stdlib.Strings Require Import String Ascii Byte.
From stdpp Require Import base option gmap strings list fin_maps.

Local Open Scope string_scope.
Local Open Scope Z_scope.

Set Warnings "-register-all".

(* ===================================================================== *)
(** ** Results of calls that may raise *)
(* ===================================================================== *)

(** The exceptions of the two parts.  [TypeMarshalError] is Python's
    [TypeError] and [ReadOnlyError] is [soma.SOMAError] in the tests. *)
Inductive exn :=
  | TypeMarshalError
  | ReadOnlyError
  | ReservedKeyError
  | OpenModeConflictError
  | AssertionError
  | TileDBError
  | KeyError
  | InternalError (msg : string).

Inductive result (A : Type) :=
  | Ok (a : A)
  | Raise (e : exn).
Arguments Ok {A} a.
Arguments Raise {A} e.

(* ===================================================================== *)
(** ** Python primitives used by the sources *)
(* ===================================================================== *)

Module Py.

(** [s.startswith(p)] *)
Definition startswith (s p : string) : bool := String.prefix p s.

(** [posixpath.join(a, b)] for one component: an absolute [b] replaces
    [a]; an empty [a] or an [a] that ends in a separator takes [b]
    as it is; every other [a] takes a separator first. *)
Fixpoint endswith_sep (a : string) : bool :=
  match a with
  | EmptyString => false
  | String c EmptyString => Ascii.eqb c "/"
  | String _ rest => endswith_sep rest
  end.

Definition os_path_join (a b : string) : string :=
  if startswith b "/" then b
  else if (String.eqb a "" || endswith_sep a)%bool then a +:+ b
  else a +:+ "/" +:+ b.

(** [posixpath.basename(p)]: what follows the last separator. *)
Fixpoint os_path_basename (p : string) : string :=
  match p with
  | EmptyString => EmptyString
  | String c rest =>
      if Ascii.eqb c "/" then os_path_basename rest
      else if existsb (Ascii.eqb "/") (list_ascii_of_string rest)
           then os_path_basename rest
           else p
  end.

(** ["/" in s] *)
Definition contains_sep (s : string) : bool :=
  existsb (Ascii.eqb "/") (list_ascii_of_string s).



End Py.

(* ===================================================================== *)
(** ** Little-endian byte strings *)
(* ===================================================================== *)

Module Bytes.

Definition byte_of_Z (z : Z) : byte :=
  match Byte.of_N (Z.to_N (z mod 256)) with
  | Some b => b
  | None => x00
  end.

Definition Z_of_byte (b : byte) : Z := Z.of_N (Byte.to_N b).

(** The [n] low bytes of [z], least significant first. *)
Fixpoint le_bytes (n : nat) (z : Z) : list byte :=
  match n with
  | O => []
  | S n' => byte_of_Z z :: le_bytes n' (z / 256)
  end.

(** The unsigned number a little-endian byte string denotes. *)
Fixpoint le_value (bs : list byte) : Z :=
  match bs with
  | [] => 0
  | b :: rest => Z_of_byte b + 256 * le_value rest
  end.

(** Two's-complement reading of a 64-bit pattern. *)
Definition signed64 (u : Z) : Z :=
  if u <? 2 ^ 63 then u else u - 2 ^ 64.

End Bytes.

(* ===================================================================== *)
(** ** The scalar metadata store *)
(* ===================================================================== *)

Module Metadata.
Import Bytes.

(** *** Python values handed to the store

    A Python [float] is its binary64 bit pattern, an [int] is a [Z]
    (the data model keeps 64-bit signed integers), a [str] is its UTF-8
    byte string. *)
Inductive scalar :=
  | PyBool (b : bool)
  | PyInt (z : Z)
  | PyFloat (bits : Z)
  | PyStr (s : string).

Inductive value :=
  | Scalar (x : scalar)
  | PyList (elems : list value)
  | PyDict (entries : list (value * value)).

Definition is_container (v : value) : bool :=
  match v with
  | Scalar _ => false
  | PyList _ | PyDict _ => true
  end.

(** The scalars of the data model: 64-bit signed integers and 64-bit
    IEEE-754 floats. *)
Definition in_data_model (x : scalar) : Prop :=
  match x with
  | PyInt z => - 2 ^ 63 <= z < 2 ^ 63
  | PyFloat bits => 0 <= bits < 2 ^ 64
  | PyBool _ | PyStr _ => True
  end.

(** *** IEEE-754 binary64 on bit patterns *)

Definition float_exponent (bits : Z) : Z := Z.land (Z.shiftr bits 52) 2047.
Definition float_mantissa (bits : Z) : Z := Z.land bits (2 ^ 52 - 1).
Definition float_negative (bits : Z) : bool := Z.testbit bits 63.

Definition float_isnan (bits : Z) : bool :=
  (float_exponent bits =? 2047) && negb (float_mantissa bits =? 0).

(** The value of a finite float times [2 ^ 1075], an integer; [None]
    for the infinities and NaN. *)
Definition float_scaled (bits : Z) : option Z :=
  let e := float_exponent bits in
  let m := float_mantissa bits in
  if e =? 2047 then None
  else
    let significand := if e =? 0 then m else 2 ^ 52 + m in
    let magnitude := significand * 2 ^ Z.max e 1 in
    Some (if float_negative bits then - magnitude else magnitude).

(** IEEE-754 equality: NaN equals nothing, the two zeros are equal. *)
Definition float_eqb (a b : Z) : bool :=
  if (float_isnan a || float_isnan b)%bool then false
  else
    match float_scaled a, float_scaled b with
    | Some x, Some y => x =? y
    | None, None => Bool.eqb (float_negative a) (float_negative b)
    | _, _ => false
    end.

Definition int_float_eqb (z bits : Z) : bool :=
  match float_scaled bits with
  | Some y => z * 2 ^ 1075 =? y
  | None => false
  end.

(** [math.isnan], guarded as the test guards it:
    [type(test_value) is float and math.isnan(test_value)]. *)
Definition isnan (x : scalar) : bool :=
  match x with
  | PyFloat bits => float_isnan bits
  | _ => false
  end.

Definition as_int (x : scalar) : option Z :=
  match x with
  | PyBool b => Some (Z.b2z b)
  | PyInt z => Some z
  | _ => None
  end.

(** Python's [==] on scalars: [bool] is a subclass of [int], numbers
    compare by value, a string equals only a string. *)
Definition py_eq (x y : scalar) : bool :=
  match x, y with
  | PyStr s, PyStr t => String.eqb s t
  | PyStr _, _ | _, PyStr _ => false
  | PyFloat a, PyFloat b => float_eqb a b
  | PyFloat a, _ =>
      match as_int y with Some z => int_float_eqb z a | None => false end
  | _, PyFloat b =>
      match as_int x with Some z => int_float_eqb z b | None => false end
  | _, _ =>
      match as_int x, as_int y with
      | Some a, Some b => a =? b
      | _, _ => false
      end
  end.

(** *** The marshaller *)

Inductive storage_type := StBool | StInt64 | StFloat64 | StStringUtf8.

Record storage_scalar := {
  st_type : storage_type;
  st_bytes : list byte
}.

(** Modelled from the spec: the marshaller of the metadata store, which
    is not among the sources.  Section 4.1: booleans, integers, floats
    and strings are encoded to typed bytes of the storage engine (native
    signed 64-bit integers, native IEEE-754 floats, native UTF-8
    strings, section 6); sequences and mappings are rejected with
    [TypeMarshalError]. *)
Definition encode (v : value) : result storage_scalar :=
  match v with
  | Scalar (PyBool b) =>
      Ok {| st_type := StBool; st_bytes := [byte_of_Z (Z.b2z b)] |}
  | Scalar (PyInt z) =>
      Ok {| st_type := StInt64; st_bytes := le_bytes 8 z |}
  | Scalar (PyFloat bits) =>
      Ok {| st_type := StFloat64; st_bytes := le_bytes 8 bits |}
  | Scalar (PyStr s) =>
      Ok {| st_type := StStringUtf8; st_bytes := list_byte_of_string s |}
  | PyList _ | PyDict _ => Raise TypeMarshalError
  end.

(** Modelled from the spec: the inverse direction of the marshaller
    (section 4.1), reading the typed bytes back. *)
Definition decode (r : storage_scalar) : scalar :=
  match st_type r with
  | StBool => PyBool (negb (le_value (st_bytes r) =? 0))
  | StInt64 => PyInt (signed64 (le_value (st_bytes r) mod 2 ^ 64))
  | StFloat64 => PyFloat (le_value (st_bytes r) mod 2 ^ 64)
  | StStringUtf8 => PyStr (string_of_list_byte (st_bytes r))
  end.

(** *** The store *)

Inductive session := Unopened | OpenRead | OpenWrite | Closed.

Inductive mutation :=
  | Put (r : storage_scalar)
  | Remove.

(** Modelled from the spec: the state of a metadata store (section
    4.2), which is not among the sources: the session mode, the
    persisted entries the session was opened on, and the mutations
    buffered until flush. *)
Record store := {
  mode : session;
  persisted : gmap string storage_scalar;
  staged : gmap string mutation
}.

(** The reserved prefix, as the tests spell it:
    [k.startswith("soma_")]. *)
Definition reserved_prefix : string := "soma_".
Definition is_reserved (k : string) : bool := Py.startswith k reserved_prefix.

Definition overlay (m : option mutation) (p : option storage_scalar)
  : option storage_scalar :=
  match m with
  | Some (Put r) => Some r
  | Some Remove => None
  | None => p
  end.

(** What the session sees physically: the persisted entries with the
    staged mutations applied. *)
Definition current (s : store) : gmap string storage_scalar :=
  merge overlay (staged s) (persisted s).

Definition stage (k : string) (m : mutation) (s : store) : store :=
  {| mode := mode s;
     persisted := persisted s;
     staged := <[k := m]> (staged s) |}.

(** Modelled from the spec: [get(key)] of section 4.2, the decoded
    value or an absent indicator. *)
Definition get (s : store) (k : string) : option scalar :=
  decode <$> current s !! k.

(** Modelled from the spec: [contains(key)] of section 4.2, the
    [k in obj.metadata] of the tests; it reflects staged state.  A key
    of the reserved namespace is reported like any other: the tests ask
    it of every key that [items()] yields, and those keys include the
    reserved ones (see [iterate]). *)
Definition contains (s : store) (k : string) : bool :=
  bool_decide (is_Some (current s !! k)).

(** Modelled from the spec: [iterate()] of section 4.2, the
    [obj.metadata.items()] of the tests: the pairs of the current
    state.  The keys of the reserved namespace are among them: the
    tests call an object empty when it has "no keys other than soma_
    keys" and take those keys out themselves, with
    [if not k.startswith("soma_")], which is [non_soma_metadata]
    below. *)
Definition iterate (s : store) : list (string * scalar) :=
  List.map (fun kr => (fst kr, decode (snd kr)))
    (map_to_list (current s)).

(** Modelled from the spec: [set(key, value)] of section 4.2.  It
    fails with [ReadOnlyError] unless the session is open for writing
    (the tests expect the same error on a closed object), with
    [TypeMarshalError] if the marshaller rejects the value, and it
    refuses a key of the reserved namespace (section 3: never writable
    by callers; the spec names no error kind for it); otherwise the
    mutation is staged. *)
Definition set (k : string) (v : value) (s : store) : result unit * store :=
  match mode s with
  | OpenWrite =>
      match encode v with
      | Raise e => (Raise e, s)
      | Ok r =>
          if is_reserved k then (Raise ReservedKeyError, s)
          else (Ok tt, stage k (Put r) s)
      end
  | _ => (Raise ReadOnlyError, s)
  end.

(** Modelled from the spec: [delete(key)] of section 4.2; removing an
    absent key is not an error. *)
Definition delete (k : string) (s : store) : result unit * store :=
  match mode s with
  | OpenWrite =>
      if is_reserved k then (Raise ReservedKeyError, s)
      else (Ok tt, stage k Remove s)
  | _ => (Raise ReadOnlyError, s)
  end.

(** Modelled from the spec: [update(mapping)] of section 4.2, repeated
    [set] calls that stop at the first failure. *)
Fixpoint update (kvs : list (string * value)) (s : store)
  : result unit * store :=
  match kvs with
  | [] => (Ok tt, s)
  | (k, v) :: rest =>
      match set k v s with
      | (Ok _, s') => update rest s'
      | (Raise e, s') => (Raise e, s')
      end
  end.

(** Modelled from the spec: a session opened on the persisted entries
    (sections 4.2 and 4.3). *)
Definition open (m : session) (disk : gmap string storage_scalar) : store :=
  {| mode := m; persisted := disk; staged := ∅ |}.

(** Modelled from the spec: [close] flushes the buffered mutations of a
    write session and ends the session (section 4.2); it is idempotent
    on a store that is not open. *)
Definition close (s : store) : store :=
  match mode s with
  | OpenWrite => {| mode := Closed; persisted := current s; staged := ∅ |}
  | OpenRead => {| mode := Closed; persisted := persisted s; staged := ∅ |}
  | Unopened | Closed => s
  end.

(** The helper of the tests:
    [{k: v for (k, v) in obj.metadata.items() if not k.startswith("soma_")}]. *)
Definition non_soma_metadata (s : store) : gmap string scalar :=
  list_to_map
    (List.filter (fun kv => negb (Py.startswith (fst kv) "soma_"))
       (iterate s)).

(** An object as the fixture of the tests creates it: open for writing,
    holding only a bookkeeping key of the implementation. *)
Definition created : store :=
  open OpenWrite
    {[ "soma_object_type" :=
         {| st_type := StStringUtf8;
            st_bytes := list_byte_of_string "SOMADataFrame" |} ]}.

(** The same object reopened for reading after [foobar] was set. *)
Definition reopened : store :=
  open OpenRead
    (persisted (close (snd (set "foobar" (Scalar (PyBool true)) created)))).

(** The bit patterns of the floats the tests store. *)
Definition nan_bits : Z := 0x7ff8000000000000.
Definition inf_bits : Z := 0x7ff0000000000000.
Definition neg_inf_bits : Z := 0xfff0000000000000.

(** Leaving the [with] block of an object and opening it again with
    [factory.open(uri, m)]: the session is closed, which flushes it, and
    a new one is opened on what is persisted. *)
Definition reopen (m : session) (s : store) : store :=
  open m (persisted (close s)).

End Metadata.

(* ===================================================================== *)
(** ** The pairwise matrix group *)
(* ===================================================================== *)

Module PairwiseGroup.

(** ['r'] and ['w'] *)
Inductive open_mode := R | W.

Definition open_mode_eqb (a b : open_mode) : bool :=
  match a, b with
  | R, R | W, W => true
  | _, _ => false
  end.

(** [obj.type] of a [tiledb.object.Object]: [tiledb.libtiledb.Array],
    [tiledb.tiledb.Group], or anything else. *)
Inductive object_type := TArray | TGroup | TOther.

(** A listed member of a physical group: a [tiledb.object.Object]. *)
Record member := {
  m_uri : string;
  m_type : object_type
}.

(** The two classes of matrix handles the group constructs. *)
Inductive matrix_class := AssayMatrix | AnnotationPairwiseMatrix.

(** A child handle; [parent=self] is kept as the parent's URI. *)
Record matrix_handle := {
  h_class : matrix_class;
  h_uri : string;
  h_name : string;
  h_row_dim_name : string;
  h_col_dim_name : string;
  h_parent : string
}.

(** The attributes of an [AnnotationPairwiseMatrixGroup] instance;
    [tiledb_group] is the handle of the open session, if any. *)
Record group := {
  uri : string;
  name : string;
  parent : option string;
  row_dim_name : string;
  col_dim_name : string;
  tiledb_group : option open_mode
}.

Section Model.

(** The source's matrix-like values and scipy's CSR matrices are
    opaque to the group. *)
Context {Matrix Csr : Type}.

(** What [from_matrix] stores for an array. *)
Record array_data := {
  a_matrix : Matrix;
  a_row_names : list string;
  a_col_names : list string
}.

(** The calls a method makes on the base class and on its children,
    in order. *)
Inductive call :=
  | CallOpen (m : open_mode)
  | CallFromMatrix (child : matrix_handle) (matrix : Matrix)
      (row_names col_names : list string)
  | CallAddObject (child : matrix_handle)
  | CallClose.

(** The group instance, the physical storage (groups with their
    listings and arrays, by URI), the URIs at which the storage engine
    fails to write an array, and the calls made so far. *)
Record state := {
  self : group;
  groups : gmap string (gmap string member);
  arrays : gmap string array_data;
  unwritable : gset string;
  calls : list call
}.

(** *** Stateful computations that may raise *)

Definition M (A : Type) : Type := state -> result A * state.

Definition ret {A} (a : A) : M A := fun st => (Ok a, st).
Definition raise {A} (e : exn) : M A := fun st => (Raise e, st).

Definition bind {A B} (c : M A) (k : A -> M B) : M B :=
  fun st =>
    match c st with
    | (Ok a, st') => k a st'
    | (Raise e, st') => (Raise e, st')
    end.

(** [try: x = c / except: pass], with [x] preset to [None]. *)
Definition try_pass {A} (c : M A) : M (option A) :=
  fun st =>
    match c st with
    | (Ok a, st') => (Ok (Some a), st')
    | (Raise _, st') => (Ok None, st')
    end.

Definition get_self : M group := fun st => (Ok (self st), st).

Definition log (c : call) : M unit :=
  fun st =>
    (Ok tt, {| self := self st; groups := groups st;
               arrays := arrays st; unwritable := unwritable st;
               calls := calls st ++ [c] |}).

Definition with_handle (g : group) (h : option open_mode) : group :=
  {| uri := uri g; name := name g; parent := parent g;
     row_dim_name := row_dim_name g; col_dim_name := col_dim_name g;
     tiledb_group := h |}.

(** [self.tiledb_group = h] *)
Definition set_handle (h : option open_mode) : M unit :=
  fun st =>
    (Ok tt, {| self := with_handle (self st) h; groups := groups st;
               arrays := arrays st; unwritable := unwritable st;
               calls := calls st |}).

Definition set_groups (gs : gmap string (gmap string member)) : M unit :=
  fun st =>
    (Ok tt, {| self := self st; groups := gs;
               arrays := arrays st; unwritable := unwritable st;
               calls := calls st |}).

Definition set_arrays (ars : gmap string array_data) : M unit :=
  fun st =>
    (Ok tt, {| self := self st; groups := groups st;
               arrays := ars; unwritable := unwritable st;
               calls := calls st |}).

Fixpoint for_each {A} (l : list A) (body : A -> M unit) : M unit :=
  match l with
  | [] => ret tt
  | x :: rest => bind (body x) (fun _ => for_each rest body)
  end.

Notation "'let*' x ':=' c 'in' k" := (bind c (fun x => k))
  (at level 10, x pattern, c at level 100, k at level 200).
Notation "c ';;' k" := (bind c (fun _ => k))
  (at level 100, k at level 200, right associativity).

(** *** The storage engine, as the sources use it *)

(** [tiledb.Group(uri, mode='r')]: the listing of the group at [uri];
    it raises when there is no group there. *)
Definition tiledb_Group (u : string) : M (gmap string member) :=
  fun st =>
    match groups st !! u with
    | Some listing => (Ok listing, st)
    | None => (Raise TileDBError, st)
    end.

(** [self.tiledb_group[name]]: the member of that name in the
    physical listing of the open group; it raises when the handle is
    unset or the name is not listed. *)
Definition tiledb_group_getitem (nm : string) : M member :=
  let* g := get_self in
  match tiledb_group g with
  | None => raise TileDBError
  | Some _ =>
      let* listing := tiledb_Group (uri g) in
      match listing !! nm with
      | Some obj => ret obj
      | None => raise TileDBError
      end
  end.

(** [tiledb.open(uri)] followed by [A[:]]: the stored array; it
    raises when there is no array at [uri]. *)
Definition tiledb_open (u : string) : M array_data :=
  fun st =>
    match arrays st !! u with
    | Some a => (Ok a, st)
    | None => (Raise TileDBError, st)
    end.

(** *** The base class and the child matrix *)

(** Modelled from the spec: [TileDBGroup.open], which is not among
    the sources.  Section 4.3: a no-op if already open in the same
    mode; [OpenModeConflictError] if already open in a different
    mode; otherwise it binds to the physical state, creating a new
    empty object if the mode is write and nothing exists.  Reading a
    group that does not exist is the storage engine's error. *)
Definition open (m : open_mode) : M unit :=
  log (CallOpen m) ;;
  let* g := get_self in
  match tiledb_group g with
  | Some m' =>
      if open_mode_eqb m m' then ret tt else raise OpenModeConflictError
  | None =>
      fun st =>
        match groups st !! uri g, m with
        | Some _, _ => set_handle (Some m) st
        | None, W =>
            (set_groups (<[uri g := ∅]> (groups st)) ;;
             set_handle (Some W)) st
        | None, R => (Raise TileDBError, st)
        end
  end.

(** Modelled from the spec: [TileDBGroup.close], which is not among
    the sources.  Section 4.3: tears the session down; idempotent if
    already closed. *)
Definition close : M unit :=
  log CallClose ;;
  set_handle None.

(** Modelled from the spec: [TileDBGroup.add_object], the [Group.add]
    of section 4.4, which is not among the sources: it requires the
    group to be open for writing, fails with [ReadOnlyError]
    otherwise, and registers or overwrites the entry of the child's
    name; a matrix child is listed as an array. *)
Definition add_object (obj : matrix_handle) : M unit :=
  log (CallAddObject obj) ;;
  let* g := get_self in
  match tiledb_group g with
  | Some W =>
      fun st =>
        let listing := default ∅ (groups st !! uri g) in
        let entry := {| m_uri := h_uri obj; m_type := TArray |} in
        set_groups (<[uri g := <[h_name obj := entry]> listing]> (groups st)) st
  | _ => raise ReadOnlyError
  end.

(** Modelled from the spec: [AssayMatrix.from_matrix], which is not
    among the sources.  Sections 2 and 6: it creates the array at the
    child's URI and writes the matrix with the given row and column
    labels.  Sections 4.5 and 7: the write of a member may fail; the
    error is the storage engine's, and nothing is written then. *)
Definition from_matrix (child : matrix_handle) (matrix : Matrix)
    (row_names col_names : list string) : M unit :=
  log (CallFromMatrix child matrix row_names col_names) ;;
  fun st =>
    if decide (h_uri child ∈ unwritable st) then (Raise TileDBError, st)
    else
      set_arrays
        (<[h_uri child := {| a_matrix := matrix;
                             a_row_names := row_names;
                             a_col_names := col_names |}]> (arrays st)) st.

(** *** [AnnotationPairwiseMatrixGroup] *)

(** [__init__]: [assert(name in ['obsp', 'varp'])], the base
    constructor, and the dimension names chosen by [name]. *)
Definition init (u nm : string) (p : option string) : result group :=
  if existsb (String.eqb nm) ["obsp"; "varp"] then
    if String.eqb nm "obsp" then
      Ok {| uri := u; name := nm; parent := p;
            row_dim_name := "obs_id_i"; col_dim_name := "obs_id_j";
            tiledb_group := None |}
    else
      Ok {| uri := u; name := nm; parent := p;
            row_dim_name := "var_id_i"; col_dim_name := "var_id_j";
            tiledb_group := None |}
  else Raise AssertionError.

(** The source mapping is a Python dict, which keeps its items in
    insertion order: a list of pairs, whose keys are distinct. *)

(** [d.keys()] *)
Definition dict_keys (d : list (string * Matrix)) : list string :=
  List.map fst d.

(** [d[k]] *)
Fixpoint dict_lookup (d : list (string * Matrix)) (k : string)
  : option Matrix :=
  match d with
  | [] => None
  | (k', v) :: rest => if String.eqb k' k then Some v else dict_lookup rest k
  end.

(** [annotation_pairwise_matrices[matrix_name]] *)
Definition dict_getitem (d : list (string * Matrix)) (k : string) : M Matrix :=
  match dict_lookup d k with
  | Some v => ret v
  | None => raise KeyError
  end.

(** The [AssayMatrix(...)] constructed in the loop of
    [from_anndata]. *)
Definition new_child (g : group) (matrix_name : string) : matrix_handle :=
  let matrix_uri := Py.os_path_join (uri g) matrix_name in
  {| h_class := AssayMatrix;
     h_uri := matrix_uri;
     h_name := matrix_name;
     h_row_dim_name := row_dim_name g;
     h_col_dim_name := col_dim_name g;
     h_parent := uri g |}.

(** The body of the loop of [from_anndata], for one [matrix_name]. *)
Definition import_one (annotation_pairwise_matrices : list (string * Matrix))
    (dim_values : list string) (matrix_name : string) : M unit :=
  let* anndata_matrix :=
    dict_getitem annotation_pairwise_matrices matrix_name in
  let* g := get_self in
  let annotation_pairwise_matrix := new_child g matrix_name in
  from_matrix annotation_pairwise_matrix anndata_matrix
    dim_values dim_values ;;
  add_object annotation_pairwise_matrix.

(** [from_anndata]; a call that raises ends it there, since nothing
    in it catches exceptions. *)
Definition from_anndata (annotation_pairwise_matrices : list (string * Matrix))
    (dim_values : list string) : M unit :=
  open W ;;
  for_each (dict_keys annotation_pairwise_matrices)
    (import_one annotation_pairwise_matrices dim_values) ;;
  close.

(** [to_dict_of_csr]; [tocsr] stands for
    [scipy.sparse.coo_matrix(pd.DataFrame(A[:])).tocsr()], which may
    raise.  The progress messages printed under [self.verbose] are
    left out. *)
Fixpoint read_members (tocsr : array_data -> result Csr)
    (elements : list (string * member))
    (matrices_in_group : gmap string Csr) : M (gmap string Csr) :=
  match elements with
  | [] => ret matrices_in_group
  | (_, element) :: rest =>
      let* A := tiledb_open (m_uri element) in
      match tocsr A with
      | Raise e => raise e
      | Ok csr =>
          let matrix_name := Py.os_path_basename (m_uri element) in
          read_members tocsr rest (<[matrix_name := csr]> matrices_in_group)
      end
  end.

Definition to_dict_of_csr (tocsr : array_data -> result Csr)
  : M (gmap string Csr) :=
  let* g := get_self in
  let* grp := try_pass (tiledb_Group (uri g)) in
  match grp with
  | None => ret ∅
  | Some listing => read_members tocsr (map_to_list listing) ∅
  end.

(** [__getitem__] *)
Definition getitem (nm : string) : M (option matrix_handle) :=
  open R ;;
  let* obj := try_pass (tiledb_group_getitem nm) in
  close ;;
  let* g := get_self in
  match obj with
  | None => ret None
  | Some o =>
      match m_type o with
      | TGroup =>
          raise (InternalError
            "Internal error: found group element where array element was expected.")
      | TArray =>
          ret (Some {| h_class := AnnotationPairwiseMatrix;
                       h_uri := m_uri o;
                       h_name := nm;
                       h_row_dim_name := row_dim_name g;
                       h_col_dim_name := col_dim_name g;
                       h_parent := uri g |})
      | TOther =>
          raise (InternalError
            "Internal error: found group element neither subgroup nor array: type is")
      end
  end.

(** [__getitem__] over any base class: [base_open] and [base_close]
    stand for [TileDBGroup.open] and [TileDBGroup.close], which are
    not among the sources; [getitem] is this method over the [open] and
    [close] modelled above. *)
Definition getitem_over (base_open : open_mode -> M unit) (base_close : M unit)
    (nm : string) : M (option matrix_handle) :=
  base_open R ;;
  let* obj := try_pass (tiledb_group_getitem nm) in
  base_close ;;
  let* g := get_self in
  match obj with
  | None => ret None
  | Some o =>
      match m_type o with
      | TGroup =>
          raise (InternalError
            "Internal error: found group element where array element was expected.")
      | TArray =>
          ret (Some {| h_class := AnnotationPairwiseMatrix;
                       h_uri := m_uri o;
                       h_name := nm;
                       h_row_dim_name := row_dim_name g;
                       h_col_dim_name := col_dim_name g;
                       h_parent := uri g |})
      | TOther =>
          raise (InternalError
            "Internal error: found group element neither subgroup nor array: type is")
      end
  end.

End Model.

Arguments array_data : clear implicits.
Arguments call : clear implicits.
Arguments state : clear implicits.
Arguments M : clear implicits.

(** *** The bulk-import scenario

    An [obsp] group under a SOMA at [soma], two dense matrices, and the
    axis labels [c1], [c2], [c3]. *)

Definition obsp : group :=
  {| uri := "soma/obsp"; name := "obsp"; parent := Some "soma";
     row_dim_name := "obs_id_i"; col_dim_name := "obs_id_j";
     tiledb_group := None |}.

Definition M1 : list (list Z) := [[1; 0; 0]; [0; 1; 0]; [0; 0; 1]].
Definition M2 : list (list Z) := [[0; 2; 0]; [2; 0; 3]; [0; 3; 0]].
Definition axis_labels : list string := ["c1"; "c2"; "c3"].

(** Nothing stored yet: the group was never created. *)
Definition never_created : state (list (list Z)) :=
  {| self := obsp; groups := ∅; arrays := ∅; unwritable := ∅; calls := [] |}.

(** The same, on a storage that fails to write at [soma/obsp/m2]. *)
Definition fails_at_m2 : state (list (list Z)) :=
  {| self := obsp; groups := ∅; arrays := ∅;
     unwritable := {[ "soma/obsp/m2" ]}; calls := [] |}.

(** After importing [{"m1": M1, "m2": M2}]. *)
Definition imported : state (list (list Z)) :=
  snd (from_anndata [("m1", M1); ("m2", M2)] axis_labels never_created).

(** The imported group, held open for reading by its caller. *)
Definition held_for_reading : state (list (list Z)) :=
  snd (open R imported).

(** A listing in which [sub] is a subgroup. *)
Definition with_subgroup : state (list (list Z)) :=
  {| self := obsp;
     groups := {[ "soma/obsp" :=
                    {[ "m1" := {| m_uri := "soma/obsp/m1"; m_type := TArray |};
                       "sub" := {| m_uri := "soma/obsp/sub"; m_type := TGroup |} ]};
                  "soma/obsp/sub" := ∅ ]};
     arrays := {[ "soma/obsp/m1" :=
                    {| a_matrix := M1; a_row_names := axis_labels;
                       a_col_names := axis_labels |} ]};
     unwritable := ∅;
     calls := [] |}.

End PairwiseGroup.

(* ===================================================================== *)
(** ** Properties of the metadata store *)
(* ===================================================================== *)

Module MetadataFacts.
Import Bytes Metadata.

(** *** Bytes *)

Lemma Z_of_byte_of_Z z : Z_of_byte (byte_of_Z z) = z mod 256.
Proof.
  unfold Z_of_byte, byte_of_Z.
  assert (Hr : 0 <= z mod 256 < 256) by (apply Z.mod_pos_bound; lia).
  destruct (Byte.of_N (Z.to_N (z mod 256))) as [b|] eqn:E.
  - apply Byte.to_of_N in E. rewrite E. lia.
  - apply Byte.of_N_None_iff in E. lia.
Qed.

Lemma le_value_le_bytes n z :
  le_value (le_bytes n z) = z mod 256 ^ Z.of_nat n.
Proof.
  revert z. induction n as [|n IH]; intros z.
  - simpl. now rewrite Z.mod_1_r.
  - cbn [le_bytes le_value]. rewrite Z_of_byte_of_Z, IH.
    rewrite Nat2Z.inj_succ, Z.pow_succ_r by lia.
    rewrite Z.rem_mul_r by lia. reflexivity.
Qed.

Lemma le_value_le_bytes_8 z : le_value (le_bytes 8 z) = z mod 2 ^ 64.
Proof. rewrite le_value_le_bytes. reflexivity. Qed.

Lemma signed64_wrap z :
  - 2 ^ 63 <= z < 2 ^ 63 -> signed64 (z mod 2 ^ 64) = z.
Proof.
  intros Hz. unfold signed64.
  pose proof (Z.mod_pos_bound z (2 ^ 64) ltac:(lia)) as Hr.
  pose proof (Z.div_mod z (2 ^ 64) ltac:(lia)) as Hq.
  destruct (Z.ltb_spec (z mod 2 ^ 64) (2 ^ 63)); lia.
Qed.

(** *** The marshaller *)

Lemma decode_encode x :
  in_data_model x -> exists r, encode (Scalar x) = Ok r /\ decode r = x.
Proof.
  intros Hx. destruct x as [b|z|bits|str];
    (eexists; split; [reflexivity|]); unfold decode; cbn [st_type st_bytes].
  - destruct b; reflexivity.
  - rewrite le_value_le_bytes_8, Z.mod_mod by lia.
    f_equal. now apply signed64_wrap.
  - rewrite le_value_le_bytes_8, Z.mod_mod by lia.
    f_equal. simpl in Hx. now apply Z.mod_small.
  - now rewrite string_of_list_byte_of_string.
Qed.

Lemma encode_container v :
  is_container v = true -> encode v = Raise TypeMarshalError.
Proof. destruct v; [discriminate | reflexivity | reflexivity]. Qed.

Lemma float_eqb_refl bits : float_isnan bits = false -> float_eqb bits bits = true.
Proof.
  intros Hn. unfold float_eqb. rewrite Hn. cbn [orb].
  destruct (float_scaled bits).
  - apply Z.eqb_refl.
  - now destruct (float_negative bits).
Qed.

Lemma py_eq_refl x : isnan x = false -> py_eq x x = true.
Proof.
  destruct x as [b|z|bits|str]; cbn [py_eq isnan as_int]; intros Hn.
  - apply Z.eqb_refl.
  - apply Z.eqb_refl.
  - now apply float_eqb_refl.
  - apply String.eqb_refl.
Qed.

(** *** Lookups in the current state *)

Lemma current_lookup s k :
  current s !! k = overlay (staged s !! k) (persisted s !! k).
Proof.
  unfold current. rewrite lookup_merge.
  destruct (staged s !! k), (persisted s !! k); reflexivity.
Qed.

Lemma current_stage_eq s k m :
  current (stage k m s) !! k = overlay (Some m) (persisted s !! k).
Proof. rewrite current_lookup. simpl. now rewrite lookup_insert_eq. Qed.

Lemma current_stage_ne s k k' m :
  k <> k' -> current (stage k m s) !! k' = current s !! k'.
Proof.
  intros Hne. rewrite !current_lookup. simpl.
  now rewrite lookup_insert_ne.
Qed.

(** *** Iteration and the filter of the tests *)

Lemma iterate_In (s : store) (k : string) (v : scalar) :
  In (k, v) (iterate s) <-> get s k = Some v.
Proof.
  unfold iterate, get. rewrite in_map_iff. split.
  - intros ([k' r] & Heq & Hin). cbn in Heq. injection Heq as -> <-.
    apply list_elem_of_In, elem_of_map_to_list in Hin. now rewrite Hin.
  - intros Hget.
    destruct (current s !! k) as [r|] eqn:Hr; [|discriminate].
    cbn in Hget. injection Hget as <-. exists (k, r).
    split; [reflexivity|]. now apply list_elem_of_In, elem_of_map_to_list.
Qed.

Lemma non_soma_metadata_lookup (s : store) (k : string) :
  non_soma_metadata s !! k = if is_reserved k then None else get s k.
Proof.
  unfold non_soma_metadata.
  set (l := List.filter _ (iterate s)).
  assert (Hl : forall v, In (k, v) l <-> is_reserved k = false /\ get s k = Some v).
  { intros v. subst l. rewrite filter_In, iterate_In. cbn [fst].
    unfold is_reserved, reserved_prefix.
    destruct (Py.startswith k "soma_"); cbn; intuition congruence. }
  clearbody l.
  destruct (list_to_map l !! k) as [v|] eqn:Hv.
  - apply elem_of_list_to_map_2, list_elem_of_In, Hl in Hv as [Hk Hget].
    now rewrite Hk.
  - destruct (is_reserved k) eqn:Hk; [reflexivity|].
    destruct (get s k) as [v|] eqn:Hget; [|reflexivity].
    exfalso. assert (Hin : In (k, v) l) by (apply Hl; auto).
    apply not_elem_of_list_to_map in Hv. apply Hv.
    apply list_elem_of_fmap. exists (k, v). split; [reflexivity|].
    now apply list_elem_of_In.
Qed.

(** *** The claims about the store *)

(** C1: a scalar of the data model stored under a key of a session open
    for writing is read back as a value that Python's [==] finds equal
    to it; for NaN the value read back satisfies [isnan] instead. *)
Theorem marshalling_round_trip (s : store) (k : string) (x : scalar) :
  mode s = OpenWrite -> is_reserved k = false -> in_data_model x ->
  exists s' y,
    set k (Scalar x) s = (Ok tt, s') /\
    contains s' k = true /\
    get s' k = Some y /\
    (if isnan x then isnan y = true else py_eq y x = true).
Proof.
  intros Hm Hk Hx.
  destruct (decode_encode x Hx) as (r & He & Hd).
  exists (stage k (Put r) s), x.
  assert (Hcur : current (stage k (Put r) s) !! k = Some r)
    by (rewrite current_stage_eq; reflexivity).
  repeat split.
  - unfold set. rewrite Hm, He, Hk. reflexivity.
  - unfold contains. rewrite Hcur. reflexivity.
  - unfold get. rewrite Hcur. cbn [fmap option_fmap option_map]. now rewrite Hd.
  - destruct (isnan x) eqn:Hn; [reflexivity | now apply py_eq_refl].
Qed.

(** C2: setting a sequence or a mapping in a session open for writing
    fails with [TypeMarshalError] and writes nothing: the store is left
    as it was, so a key that was absent is absent afterwards. *)
Theorem marshalling_rejects_containers (s : store) (k : string) (v : value) :
  mode s = OpenWrite -> is_container v = true -> contains s k = false ->
  exists s',
    set k v s = (Raise TypeMarshalError, s') /\
    contains s' k = false /\
    get s' k = get s k /\
    iterate s' = iterate s.
Proof.
  intros Hm Hv Hk. exists s. repeat split; try assumption.
  unfold set. rewrite Hm, (encode_container v Hv). reflexivity.
Qed.

(** C3: in a session open read-only every [set] and every [delete]
    fails with [ReadOnlyError], and [get], [contains] and [iterate]
    answer afterwards as they did before. *)
Theorem read_only_enforced (s : store) (k : string) (v : value) :
  mode s = OpenRead ->
  exists s1 s2,
    set k v s = (Raise ReadOnlyError, s1) /\
    delete k s = (Raise ReadOnlyError, s2) /\
    (forall k', get s1 k' = get s k' /\ contains s1 k' = contains s k') /\
    iterate s1 = iterate s /\
    (forall k', get s2 k' = get s k' /\ contains s2 k' = contains s k') /\
    iterate s2 = iterate s.
Proof.
  intros Hm. exists s, s. unfold set, delete. rewrite Hm.
  repeat split; reflexivity.
Qed.


(** *** The claims at the values of the tests *)

Lemma marshalling_round_trip_witness :
  mode created = OpenWrite /\
  is_reserved "test_value" = false /\
  in_data_model (PyFloat nan_bits) /\
  exists s' y,
    set "test_value" (Scalar (PyFloat nan_bits)) created = (Ok tt, s') /\
    contains s' "test_value" = true /\
    get s' "test_value" = Some y /\
    (if isnan (PyFloat nan_bits) then isnan y = true
     else py_eq y (PyFloat nan_bits) = true).
Proof.
  assert (Hx : in_data_model (PyFloat nan_bits)) by (vm_compute; intuition discriminate).
  split; [reflexivity|]. split; [reflexivity|]. split; [exact Hx|].
  apply (marshalling_round_trip created "test_value" (PyFloat nan_bits));
    [reflexivity | reflexivity | exact Hx].
Defined.

Lemma marshalling_rejects_containers_witness :
  mode created = OpenWrite /\
  is_container (PyList [Scalar (PyStr "a"); Scalar (PyStr "b"); Scalar (PyStr "c")]) = true /\
  contains created "test_value" = false /\
  exists s',
    set "test_value"
      (PyList [Scalar (PyStr "a"); Scalar (PyStr "b"); Scalar (PyStr "c")])
      created = (Raise TypeMarshalError, s') /\
    contains s' "test_value" = false /\
    get s' "test_value" = get created "test_value" /\
    iterate s' = iterate created.
Proof.
  split; [reflexivity|]. split; [reflexivity|]. split; [vm_compute; reflexivity|].
  apply marshalling_rejects_containers;
    [reflexivity | reflexivity | vm_compute; reflexivity].
Defined.

Lemma read_only_enforced_witness :
  mode reopened = OpenRead /\
  exists s1 s2,
    set "x" (Scalar (PyStr "y")) reopened = (Raise ReadOnlyError, s1) /\
    delete "x" reopened = (Raise ReadOnlyError, s2) /\
    (forall k', get s1 k' = get reopened k' /\
                contains s1 k' = contains reopened k') /\
    iterate s1 = iterate reopened /\
    (forall k', get s2 k' = get reopened k' /\
                contains s2 k' = contains reopened k') /\
    iterate s2 = iterate reopened.
Proof.
  split; [reflexivity|].
  apply (read_only_enforced reopened "x" (Scalar (PyStr "y"))). reflexivity.
Defined.



(** *** The values of [test_metadata_marshalling_OK] *)

Example round_trip_of_the_test_values :
  let read_back x :=
    get (snd (set "test_value" (Scalar x) created)) "test_value" in
  read_back (PyBool true) = Some (PyBool true) /\
  read_back (PyBool false) = Some (PyBool false) /\
  read_back (PyInt 0) = Some (PyInt 0) /\
read_back (PyInt (- 2 ^ 63)) = Some (PyInt (- 2 ^ 63)) /\
read_back (PyInt (2 ^ 63 - 1)) = Some (PyInt (2 ^ 63 - 1)) /\
  read_back (PyFloat 0x3ff0000002af31dc) = Some (PyFloat 0x3ff0000002af31dc) /\
  read_back (PyFloat 0xc00921cac083126f) = Some (PyFloat 0xc00921cac083126f) /\
  read_back (PyStr "") = Some (PyStr "") /\
  read_back (PyStr "a string") = Some (PyStr "a string") /\
  option_map isnan (read_back (PyFloat nan_bits)) = Some true /\
  option_map (py_eq (PyFloat inf_bits)) (read_back (PyFloat inf_bits)) = Some true /\
  option_map (py_eq (PyFloat neg_inf_bits)) (read_back (PyFloat neg_inf_bits))
  = Some true.
Proof.
  cbv zeta.
  repeat (split; [vm_compute; reflexivity|]).
  vm_compute; reflexivity.
Qed.

Example nan_is_not_equal_to_itself :
  py_eq (PyFloat nan_bits) (PyFloat nan_bits) = false.
Proof. vm_compute. reflexivity. Qed.

(** The first steps of [test_metadata]: nothing but bookkeeping keys
    at the start, then [foobar], also after reopening for reading. *)
Example test_metadata_first_steps :
  non_soma_metadata created = ∅ /\
  contains created "foobar" = false /\
  non_soma_metadata (snd (set "foobar" (Scalar (PyBool true)) created))
  = {[ "foobar" := PyBool true ]} /\
  non_soma_metadata reopened = {[ "foobar" := PyBool true ]} /\
  contains reopened "foobar" = true /\
  fst (set "x" (Scalar (PyStr "y")) reopened) = Raise ReadOnlyError.
Proof.
  cbv zeta.
  repeat (split; [vm_compute; reflexivity|]).
  vm_compute; reflexivity.
Qed.

End MetadataFacts.

(* ===================================================================== *)
(** ** Properties of the pairwise matrix group *)
(* ===================================================================== *)

Module PairwiseGroupFacts.
Import PairwiseGroup.

(** *** Paths *)



Lemma insert_keeps {V} (m : gmap string V) (a b : string) (x : V) :
  is_Some (m !! b) -> is_Some (<[a := x]> m !! b).
Proof.
  intros Hb. destruct (string_dec a b) as [<-|Hne].
  - rewrite lookup_insert_eq. eauto.
  - now rewrite lookup_insert_ne.
Qed.

Section Facts.
Context {Matrix Csr : Type}.
Implicit Types (st : state Matrix) (nm : string).

(** Unfolds the methods down to the state they compute. *)
Ltac run :=
  unfold getitem, to_dict_of_csr, open, close, add_object,
    from_matrix, tiledb_group_getitem, tiledb_Group, try_pass,
    get_self, log, set_handle, set_groups, set_arrays, with_handle,
    bind, ret, raise;
  cbn [self groups arrays unwritable calls uri name parent row_dim_name
       col_dim_name tiledb_group fst snd open_mode_eqb].

Ltac fields :=
  cbn [self groups arrays unwritable calls uri name parent row_dim_name
       col_dim_name tiledb_group fst snd open_mode_eqb].

(** Splits a lookup by the handle of the group, the presence of the
    group, and the kind of the member found. *)
Ltac lookup_cases st nm :=
  let u := fresh "u" in
  let h := fresh "h" in
  let gs := fresh "gs" in
  let listing := fresh "listing" in
  let Hg := fresh "Hg" in
  let Hm := fresh "Hm" in
  destruct st as [[u ? ? ? ? h] gs ? ? ?];
  destruct h as [[]|]; run;
  destruct (gs !! u) as [listing|] eqn:Hg;
  cbn [self groups arrays unwritable calls uri name parent row_dim_name
       col_dim_name tiledb_group fst snd open_mode_eqb];
  rewrite ?Hg;
  try (destruct (listing !! nm) as [[? []]|] eqn:Hm);
  cbn [self groups arrays unwritable calls uri name parent row_dim_name
       col_dim_name tiledb_group fst snd open_mode_eqb m_type m_uri].

(** *** The source mapping *)



(** *** What [from_anndata] computes *)


Local Abbreviation import_calls g dims l :=
  (flat_map (fun kv : string * Matrix =>
     [CallFromMatrix (new_child g (fst kv)) (snd kv) dims dims;
      CallAddObject (new_child g (fst kv))]) l).




(** *** What [from_anndata] leaves alone

    Whether the import returns or raises: the group keeps its URI and
    its dimension names, other groups keep their listings, names
    outside [ks] keep their entries, arrays at URIs that no name of
    [ks] is joined to keep their contents, nothing goes away, and the
    children in the calls made carry the group's dimension names. *)
Local Abbreviation frame ks st st' :=
  (uri (self st') = uri (self st) /\
   row_dim_name (self st') = row_dim_name (self st) /\
   col_dim_name (self st') = col_dim_name (self st) /\
   (forall u, u <> uri (self st) -> groups st' !! u = groups st !! u) /\
   (forall k : string, ~ In k ks ->
      default ∅ (groups st' !! uri (self st)) !! k =
      default ∅ (groups st !! uri (self st)) !! k) /\
   (forall u, (forall k : string, In k ks ->
                 Py.os_path_join (uri (self st)) k <> u) ->
      arrays st' !! u = arrays st !! u) /\
   (forall u, is_Some (groups st !! u) -> is_Some (groups st' !! u)) /\
   (forall u, is_Some (arrays st !! u) -> is_Some (arrays st' !! u)) /\
   exists new : list (call Matrix),
     calls st' = List.app (calls st) new /\
     forall child,
       (In (CallAddObject child) new \/
        exists m rs cs, In (CallFromMatrix child m rs cs) new) ->
       h_row_dim_name child = row_dim_name (self st) /\
       h_col_dim_name child = col_dim_name (self st)).

Lemma frame_refl (ks : list string) st : frame ks st st.
Proof.
  repeat (split; [auto|]). exists []. split; [now rewrite app_nil_r|].
  intros child [[]|(m & rs & cs & [])].
Qed.

Lemma frame_trans (ks : list string) st st1 st2 :
  frame ks st st1 -> frame ks st1 st2 -> frame ks st st2.
Proof.
  intros (Hu1 & Hr1 & Hc1 & Hg1 & Hl1 & Ha1 & Hsg1 & Hsa1 & new1 & Hn1 & Hch1)
         (Hu2 & Hr2 & Hc2 & Hg2 & Hl2 & Ha2 & Hsg2 & Hsa2 & new2 & Hn2 & Hch2).
  rewrite Hu1 in *. rewrite Hr1, Hc1 in *.
  split; [congruence|]. split; [congruence|]. split; [congruence|].
  split; [intros u Hu; now rewrite Hg2, Hg1|].
  split; [intros k Hk; now rewrite Hl2, Hl1|].
  split; [intros u Hu; now rewrite Ha2, Ha1|].
  split; [auto|]. split; [auto|].
  exists (new1 ++ new2)%list. split; [now rewrite Hn2, Hn1, app_assoc|].
  intros child [Hin|(m & rs & cs & Hin)]; apply in_app_or in Hin as [Hin|Hin];
    eauto 8.
Qed.

Lemma import_one_frame (apm : list (string * Matrix)) (dims : list string)
    (ks : list string) (k : string) st :
  In k ks -> frame ks st (snd (import_one apm dims k st)).
Proof.
  intros Hk. destruct st as [[u n p r c h] gs ars uw cs].
  unfold import_one, bind, dict_getitem.
  destruct (dict_lookup apm k) as [v|]; [|apply frame_refl].
  run.
  assert (Hcalls : forall (l : list (call Matrix)),
            (forall x, In x l ->
               x = CallAddObject (new_child
                     {| uri := u; name := n; parent := p; row_dim_name := r;
                        col_dim_name := c; tiledb_group := h |} k) \/
               x = CallFromMatrix (new_child
                     {| uri := u; name := n; parent := p; row_dim_name := r;
                        col_dim_name := c; tiledb_group := h |} k) v dims dims) ->
            forall child,
            (In (CallAddObject child) l \/
             exists m rs cs0, In (CallFromMatrix child m rs cs0) l) ->
            h_row_dim_name child = r /\ h_col_dim_name child = c).
  { intros l Hl child [Hin|(m & rs & cs0 & Hin)];
      apply Hl in Hin as [Hin|Hin]; try discriminate;
      injection Hin as ->; split; reflexivity. }
  match goal with
  | |- context [decide (?x ∈ uw)] => destruct (decide (x ∈ uw)) as [Hbad|Hgood]
  end; [|destruct h as [[]|]]; fields;
    (split; [reflexivity|]); (split; [reflexivity|]); (split; [reflexivity|]);
    (split; [intros u' Hu';
             first [reflexivity | apply lookup_insert_ne; congruence]|]);
    (split; [intros k' Hk';
             first [reflexivity
                   | rewrite lookup_insert_eq; cbn [default];
                     apply lookup_insert_ne; intros <-; contradiction]|]);
    (split; [intros u' Hu';
             first [reflexivity
                   | apply lookup_insert_ne; intros <-;
                     apply (Hu' k Hk); reflexivity]|]);
    (split; [intros u' Hu'; first [exact Hu' | apply insert_keeps; exact Hu']|]);
    (split; [intros u' Hu'; first [exact Hu' | apply insert_keeps; exact Hu']|]);
    eexists; rewrite <- ?app_assoc; (split; [reflexivity|]);
    apply Hcalls; intros x Hx; cbn [In app] in Hx; intuition.
Qed.

Lemma frame_bind {A B} (ks : list string) (c : M Matrix A)
    (k : A -> M Matrix B) st :
  frame ks st (snd (c st)) ->
  (forall a st1, frame ks st1 (snd (k a st1))) ->
  frame ks st (snd (bind c k st)).
Proof.
  intros H1 H2. unfold bind.
  destruct (c st) as [[a|e] st1]; cbn [snd] in H1 |- *; [|exact H1].
  eapply frame_trans; [exact H1 | apply H2].
Qed.

Lemma import_loop_frame (apm : list (string * Matrix)) (dims : list string)
    (ks l : list string) :
  (forall k, In k l -> In k ks) ->
  forall st, frame ks st (snd (for_each l (import_one apm dims) st)).
Proof.
  induction l as [|k l IH]; intros Hl st; [apply frame_refl|].
  cbn [for_each]. apply frame_bind.
  - apply import_one_frame, Hl. now left.
  - intros _ st1. apply IH. intros k' Hk'. apply Hl. now right.
Qed.

Lemma open_frame (ks : list string) (m : open_mode) st :
  frame ks st (snd (open m st)).
Proof.
  destruct st as [[u n p r c h] gs ars uw cs]. run.
  assert (Hnone : forall child : matrix_handle,
            In (CallAddObject child) [CallOpen (Matrix := Matrix) m] \/
            (exists (mx : Matrix) rs cs,
               In (CallFromMatrix child mx rs cs) [CallOpen m]) ->
            h_row_dim_name child = r /\ h_col_dim_name child = c).
  { intros child [[Hc|[]]|(mx & rs & cs0 & [Hc|[]])]; discriminate. }
  destruct h as [m'|]; fields;
    [destruct (open_mode_eqb m m')
    |destruct (gs !! u) as [listing|] eqn:Hg; [|destruct m]];
    fields;
    (split; [reflexivity|]); (split; [reflexivity|]); (split; [reflexivity|]);
    (split; [intros u' Hu';
             first [reflexivity | apply lookup_insert_ne; congruence]|]);
    (split; [intros k' Hk';
             first [reflexivity | now rewrite Hg
                   | now rewrite lookup_insert_eq]|]);
    (split; [intros u' Hu'; reflexivity|]);
    (split; [intros u' Hu'; first [exact Hu' | apply insert_keeps; exact Hu']|]);
    (split; [intros u' Hu'; exact Hu'|]);
    eexists; (split; [reflexivity|]); exact Hnone.
Qed.

Lemma close_frame (ks : list string) st : frame ks st (snd (close st)).
Proof.
  destruct st as [[u n p r c h] gs ars uw cs]. run.
  repeat (split; [auto|]). eexists. split; [reflexivity|].
  intros child [[Hc|[]]|(mx & rs & cs0 & [Hc|[]])]; discriminate.
Qed.

Lemma from_anndata_frame (apm : list (string * Matrix)) (dims : list string) st :
  frame (dict_keys apm) st (snd (from_anndata apm dims st)).
Proof.
  unfold from_anndata. apply frame_bind; [apply open_frame|].
  intros _ st1. apply frame_bind; [now apply import_loop_frame|].
  intros _ st2. apply close_frame.
Qed.



(** *** The claims about the group *)


(** C6: the children [from_anndata] writes and registers, and the
    handles [__getitem__] returns, carry the group's
    [row_dim_name] and [col_dim_name]; neither method changes the
    group's pair. *)
Theorem children_share_dimension_names (apm : list (string * Matrix))
    (dims : list string) nm st :
  (exists new,
     calls (snd (from_anndata apm dims st)) = (calls st ++ new)%list /\
     forall child,
       (In (CallAddObject child) new \/
        exists m rs cs, In (CallFromMatrix child m rs cs) new) ->
       h_row_dim_name child = row_dim_name (self st) /\
       h_col_dim_name child = col_dim_name (self st)) /\
  (forall h, fst (getitem nm st) = Ok (Some h) ->
     h_row_dim_name h = row_dim_name (self st) /\
     h_col_dim_name h = col_dim_name (self st)) /\
  row_dim_name (self (snd (from_anndata apm dims st))) = row_dim_name (self st) /\
  col_dim_name (self (snd (from_anndata apm dims st))) = col_dim_name (self st) /\
  row_dim_name (self (snd (getitem nm st))) = row_dim_name (self st) /\
  col_dim_name (self (snd (getitem nm st))) = col_dim_name (self st).
Proof.
  destruct (from_anndata_frame apm dims st)
    as (_ & Hrow & Hcol & _ & _ & _ & _ & _ & Hnew).
  split; [exact Hnew|].
  split; [|split; [exact Hrow|split; [exact Hcol|]]].
  - intros h. lookup_cases st nm; intros Hh; try discriminate;
      injection Hh as <-; split; reflexivity.
  - lookup_cases st nm; split; reflexivity.
Qed.

(** C7: on a group that exists and is not held open for writing,
    a name that is not listed gives [None], a name listed as an
    array gives an [AnnotationPairwiseMatrix] handle on it, and a
    name listed as a group raises the internal error. *)
Theorem getitem_by_kind nm st (listing : gmap string member) :
  tiledb_group (self st) <> Some W ->
  groups st !! uri (self st) = Some listing ->
  (listing !! nm = None -> fst (getitem nm st) = Ok None) /\
  (forall u, listing !! nm = Some {| m_uri := u; m_type := TArray |} ->
     fst (getitem nm st) =
       Ok (Some {| h_class := AnnotationPairwiseMatrix;
                   h_uri := u; h_name := nm;
                   h_row_dim_name := row_dim_name (self st);
                   h_col_dim_name := col_dim_name (self st);
                   h_parent := uri (self st) |})) /\
  (forall u, listing !! nm = Some {| m_uri := u; m_type := TGroup |} ->
     fst (getitem nm st) =
       Raise (InternalError
         "Internal error: found group element where array element was expected.")).
Proof.
  intros Hw Hg.
  destruct st as [[u0 n p r c h] gs ars uw cs]. cbn in Hw, Hg.
  destruct h as [[]|]; [ | congruence | ]; run; rewrite Hg; cbn;
    rewrite ?Hg; cbn;
    (repeat split; [intros Hl | intros u Hl | intros u Hl]; rewrite Hl; reflexivity).
Qed.

(** C8: the name [obsp] fixes the dimension names to the cell-axis
    pair, the name [varp] to the feature-axis pair, and every other
    name fails the assertion of the constructor. *)
Theorem init_dimension_names (u nm : string) (p : option string) :
  init u "obsp" p =
    Ok {| uri := u; name := "obsp"; parent := p;
          row_dim_name := "obs_id_i"; col_dim_name := "obs_id_j";
          tiledb_group := None |} /\
  init u "varp" p =
    Ok {| uri := u; name := "varp"; parent := p;
          row_dim_name := "var_id_i"; col_dim_name := "var_id_j";
          tiledb_group := None |} /\
  (nm <> "obsp" -> nm <> "varp" -> init u nm p = Raise AssertionError).
Proof.
  split; [reflexivity|]. split; [reflexivity|].
  intros H1 H2. unfold init. cbn [existsb].
  apply String.eqb_neq in H1, H2. rewrite H1, H2. reflexivity.
Qed.

(** C9: when no group was ever created at the group's URI,
    [to_dict_of_csr] returns the empty dict and raises nothing. *)
Theorem to_dict_of_csr_never_created
    (tocsr : array_data Matrix -> result Csr) st :
  groups st !! uri (self st) = None ->
  to_dict_of_csr tocsr st = (Ok ∅, st).
Proof.
  intros Habs. run. rewrite Habs. reflexivity.
Qed.

(** [__getitem__] over the [open] and [close] modelled from the spec. *)
Lemma getitem_over_base nm st : getitem nm st = getitem_over open close nm st.
Proof. reflexivity. Qed.


End Facts.

(** *** The claims on the bulk-import scenario *)


(** On a group its caller holds open for reading, [open('w')] fails and
    nothing is imported. *)
Example from_anndata_on_group_held_for_reading :
  fst (from_anndata [("m3", M1)] axis_labels held_for_reading)
  = Raise OpenModeConflictError /\
  groups (snd (from_anndata [("m3", M1)] axis_labels held_for_reading))
  = groups held_for_reading /\
  arrays (snd (from_anndata [("m3", M1)] axis_labels held_for_reading))
  = arrays held_for_reading.
Proof.
  split; [vm_compute; reflexivity|].
  split; vm_compute; reflexivity.
Qed.


Lemma children_share_dimension_names_witness :
  let h :=
    {| h_class := AnnotationPairwiseMatrix; h_uri := "soma/obsp/m1";
       h_name := "m1"; h_row_dim_name := "obs_id_i";
       h_col_dim_name := "obs_id_j"; h_parent := "soma/obsp" |} in
  fst (getitem "m1" imported) = Ok (Some h) /\
  h_row_dim_name h = row_dim_name (self imported) /\
  h_col_dim_name h = col_dim_name (self imported).
Proof.
  intros h. split; [vm_compute; reflexivity|].
  apply (proj1 (proj2
           (children_share_dimension_names [] [] "m1" imported)) h).
  vm_compute; reflexivity.
Defined.

Lemma getitem_by_kind_witness :
  let listing : gmap string member :=
    {[ "m1" := {| m_uri := "soma/obsp/m1"; m_type := TArray |};
       "sub" := {| m_uri := "soma/obsp/sub"; m_type := TGroup |} ]} in
  tiledb_group (self with_subgroup) <> Some W /\
  groups with_subgroup !! uri (self with_subgroup) = Some listing /\
  listing !! "m3" = None /\
  fst (getitem "m3" with_subgroup) = Ok None /\
  listing !! "m1" = Some {| m_uri := "soma/obsp/m1"; m_type := TArray |} /\
  fst (getitem "m1" with_subgroup) =
    Ok (Some {| h_class := AnnotationPairwiseMatrix;
                h_uri := "soma/obsp/m1"; h_name := "m1";
                h_row_dim_name := "obs_id_i";
                h_col_dim_name := "obs_id_j";
                h_parent := "soma/obsp" |}) /\
  listing !! "sub" = Some {| m_uri := "soma/obsp/sub"; m_type := TGroup |} /\
  fst (getitem "sub" with_subgroup) =
    Raise (InternalError
      "Internal error: found group element where array element was expected.").
Proof.
  intros listing.
  assert (Hw : tiledb_group (self with_subgroup) <> Some W) by discriminate.
  assert (Hg : groups with_subgroup !! uri (self with_subgroup) = Some listing)
    by (vm_compute; reflexivity).
  assert (H3 : listing !! "m3" = None) by (vm_compute; reflexivity).
  assert (H1 : listing !! "m1" = Some {| m_uri := "soma/obsp/m1"; m_type := TArray |})
    by (vm_compute; reflexivity).
  assert (Hs : listing !! "sub" = Some {| m_uri := "soma/obsp/sub"; m_type := TGroup |})
    by (vm_compute; reflexivity).
  split; [exact Hw|]. split; [exact Hg|].
  split; [exact H3|].
  split; [exact (proj1 (getitem_by_kind "m3" with_subgroup listing Hw Hg) H3)|].
  split; [exact H1|].
  split; [exact (proj1 (proj2 (getitem_by_kind "m1" with_subgroup listing Hw Hg)) _ H1)|].
  split; [exact Hs|].
  exact (proj2 (proj2 (getitem_by_kind "sub" with_subgroup listing Hw Hg)) _ Hs).
Defined.

Lemma init_dimension_names_witness :
  "obsm" <> "obsp" /\ "obsm" <> "varp" /\
  init "soma/obsm" "obsm" (Some "soma") = Raise AssertionError.
Proof.
  assert (H1 : "obsm" <> "obsp") by discriminate.
  assert (H2 : "obsm" <> "varp") by discriminate.
  split; [exact H1|]. split; [exact H2|].
  exact (proj2 (proj2 (init_dimension_names "soma/obsm" "obsm" (Some "soma"))) H1 H2).
Defined.

Lemma to_dict_of_csr_never_created_witness :
  groups never_created !! uri (self never_created) = None /\
  to_dict_of_csr (fun a => Ok (a_matrix a)) never_created
  = (Ok ∅, never_created).
Proof.
  split; [reflexivity|].
  apply (to_dict_of_csr_never_created (fun a => Ok (a_matrix a)) never_created).
  reflexivity.
Defined.


(** The bulk-import scenario end to end: both names are looked up as
    handles with the group's pair, an unknown name gives [None], and the
    export has exactly the two names. *)
Example bulk_import_scenario :
  let handle nm :=
    Ok (Some {| h_class := AnnotationPairwiseMatrix;
                h_uri := "soma/obsp/" +:+ nm; h_name := nm;
                h_row_dim_name := row_dim_name obsp;
                h_col_dim_name := col_dim_name obsp;
                h_parent := "soma/obsp" |}) in
  fst (getitem "m1" imported) = handle "m1" /\
  fst (getitem "m2" imported) = handle "m2" /\
  fst (getitem "m3" imported) = Ok None /\
  fst (to_dict_of_csr (fun a => Ok (a_matrix a)) imported)
  = Ok {[ "m1" := M1; "m2" := M2 ]}.
Proof.
  cbv zeta.
  repeat (split; [vm_compute; reflexivity|]).
  vm_compute; reflexivity.
Qed.

(** The partial-failure scenario: after the import that stopped at
    [m2] the caller closes the group; [m1] is then looked up as a
    handle and [m2] is absent. *)
Example partial_import_scenario :
  let stopped :=
    snd (from_anndata [("m1", M1); ("m2", M2)] axis_labels fails_at_m2) in
  let closed := snd (close stopped) in
  (exists h, fst (getitem "m1" closed) = Ok (Some h)) /\
  fst (getitem "m2" closed) = Ok None.
Proof.
  cbv zeta. split; [eexists|]; vm_compute; reflexivity.
Qed.

End PairwiseGroupFacts.

(* ===================================================================== *)
(** ** The metadata store across operations and sessions *)
(* ===================================================================== *)

Module MetadataSessions.
Import Bytes Metadata MetadataFacts.

(** *** Iteration against [get] and [contains] *)

(** X11: what [iterate] yields agrees with [get] and [contains]: a pair
    it yields is a key [contains] reports with the value [get] returns,
    every key [contains] reports is yielded, and no key is yielded with
    two values. *)
Theorem iterate_agrees_with_get (s : store) (k : string) :
  (forall v, In (k, v) (iterate s) ->
     contains s k = true /\ get s k = Some v) /\
  (contains s k = true -> exists v, In (k, v) (iterate s)) /\
  (forall v1 v2, In (k, v1) (iterate s) -> In (k, v2) (iterate s) -> v1 = v2).
Proof.
  split; [|split].
  - intros v Hin. apply iterate_In in Hin as Hget.
    split; [|exact Hget]. unfold contains.
    unfold get in Hget. destruct (current s !! k); [|discriminate].
    apply bool_decide_eq_true. eauto.
  - unfold contains. intros Hc. apply bool_decide_eq_true in Hc as [r Hr].
    exists (decode r). apply iterate_In. unfold get. now rewrite Hr.
  - intros v1 v2 H1 H2.
    apply iterate_In in H1. apply iterate_In in H2. congruence.
Qed.

(** *** The store as a dict *)

Lemma set_on_dict (s : store) (k : string) (x : scalar) :
  mode s = OpenWrite -> is_reserved k = false -> in_data_model x ->
  fst (set k (Scalar x) s) = Ok tt /\
  non_soma_metadata (snd (set k (Scalar x) s)) = <[k := x]> (non_soma_metadata s).
Proof.
  intros Hm Hk Hx. destruct (decode_encode x Hx) as (r & He & Hd).
  unfold set. rewrite Hm, He, Hk. cbn [fst snd]. split; [reflexivity|].
  apply map_eq. intros k'. rewrite non_soma_metadata_lookup.
  destruct (string_dec k k') as [<-|Hne].
  - rewrite lookup_insert_eq, Hk. unfold get.
    rewrite current_stage_eq. cbn. now rewrite Hd.
  - rewrite lookup_insert_ne by exact Hne.
    rewrite non_soma_metadata_lookup. unfold get.
    now rewrite current_stage_ne.
Qed.

Lemma delete_on_dict (s : store) (k : string) :
  mode s = OpenWrite -> is_reserved k = false ->
  fst (delete k s) = Ok tt /\
  non_soma_metadata (snd (delete k s)) = base.delete k (non_soma_metadata s).
Proof.
  intros Hm Hk. unfold delete. rewrite Hm, Hk. cbn [fst snd].
  split; [reflexivity|].
  apply map_eq. intros k'. rewrite non_soma_metadata_lookup.
  destruct (string_dec k k') as [<-|Hne].
  - rewrite lookup_delete_eq, Hk. unfold get.
    now rewrite current_stage_eq.
  - rewrite lookup_delete_ne by exact Hne.
    rewrite non_soma_metadata_lookup. unfold get.
    now rewrite current_stage_ne.
Qed.

Lemma current_reopen (m : session) (s : store) :
  mode s = OpenWrite -> current (reopen m s) = current s.
Proof.
  intros Hm. unfold reopen, close. rewrite Hm.
  apply map_eq. intros k. unfold current at 1, open. cbn [staged persisted].
  rewrite lookup_merge, lookup_empty.
  now destruct (current s !! k).
Qed.

Lemma reopen_on_dict (m : session) (s : store) :
  mode s = OpenWrite ->
  mode (reopen m s) = m /\
  non_soma_metadata (reopen m s) = non_soma_metadata s.
Proof.
  intros Hm. split; [reflexivity|].
  unfold non_soma_metadata, iterate. now rewrite (current_reopen m s Hm).
Qed.

(** X12: in a write session, setting a scalar under a caller's key is
    dict assignment on what [non_soma_metadata] shows, and leaves [get]
    and [contains] of every other key as they were. *)
Theorem set_is_dict_assignment (s : store) (k : string) (x : scalar) :
  mode s = OpenWrite -> is_reserved k = false -> in_data_model x ->
  fst (set k (Scalar x) s) = Ok tt /\
  non_soma_metadata (snd (set k (Scalar x) s)) = <[k := x]> (non_soma_metadata s) /\
  (forall k', k' <> k ->
     get (snd (set k (Scalar x) s)) k' = get s k' /\
     contains (snd (set k (Scalar x) s)) k' = contains s k').
Proof.
  intros Hm Hk Hx. destruct (set_on_dict s k x Hm Hk Hx) as [Hok Hdict].
  split; [exact Hok|]. split; [exact Hdict|].
  intros k' Hne. destruct (decode_encode x Hx) as (r & He & _).
  unfold set. rewrite Hm, He, Hk. cbn [snd]. unfold get, contains.
  now rewrite current_stage_ne by congruence.
Qed.

(** X13: in a write session, deleting a caller's key that the store
    holds is dict deletion on what [non_soma_metadata] shows: the key
    was there and is gone, for [get] and [contains] too, and every
    other key is as it was. *)
Theorem delete_is_dict_deletion (s : store) (k : string) :
  mode s = OpenWrite -> is_reserved k = false -> contains s k = true ->
  fst (delete k s) = Ok tt /\
  is_Some (non_soma_metadata s !! k) /\
  non_soma_metadata (snd (delete k s)) = base.delete k (non_soma_metadata s) /\
  get (snd (delete k s)) k = None /\
  contains (snd (delete k s)) k = false /\
  (forall k', k' <> k ->
     get (snd (delete k s)) k' = get s k' /\
     contains (snd (delete k s)) k' = contains s k').
Proof.
  intros Hm Hk Hc. destruct (delete_on_dict s k Hm Hk) as [Hok Hdict].
  split; [exact Hok|].
  split.
  { rewrite non_soma_metadata_lookup, Hk. unfold get.
    unfold contains in Hc. apply bool_decide_eq_true in Hc as [r ->].
    cbn. eauto. }
  split; [exact Hdict|].
  unfold delete. rewrite Hm, Hk. cbn [snd].
  split; [unfold get; now rewrite current_stage_eq|].
  split; [unfold contains; rewrite current_stage_eq; reflexivity|].
  intros k' Hne. unfold get, contains.
  now rewrite current_stage_ne by congruence.
Qed.

(** X14: what a write session staged is what the next session sees:
    after leaving the session and opening the object again, in either
    mode, [non_soma_metadata], [iterate], [get] and [contains] answer as
    they did at the end of the write session. *)
Theorem reopen_sees_what_was_written (m : session) (s : store) :
  mode s = OpenWrite ->
  mode (reopen m s) = m /\
  non_soma_metadata (reopen m s) = non_soma_metadata s /\
  iterate (reopen m s) = iterate s /\
  (forall k, get (reopen m s) k = get s k /\
             contains (reopen m s) k = contains s k).
Proof.
  intros Hm. pose proof (current_reopen m s Hm) as Hcur.
  split; [reflexivity|].
  assert (Hit : iterate (reopen m s) = iterate s)
    by (unfold iterate; now rewrite Hcur).
  split; [unfold non_soma_metadata; now rewrite Hit|].
  split; [exact Hit|].
  intros k. unfold get, contains. now rewrite Hcur.
Qed.

(** X15: two sets of the same key leave what the last one alone would,
    also when the object is reopened between them; the key reads back
    as the last value. *)
Theorem set_twice_last_wins (s : store) (k : string) (x y : scalar) :
  mode s = OpenWrite -> is_reserved k = false ->
  in_data_model x -> in_data_model y ->
  let s1 := snd (set k (Scalar x) s) in
  non_soma_metadata (snd (set k (Scalar y) s1))
  = non_soma_metadata (snd (set k (Scalar y) s)) /\
  non_soma_metadata (snd (set k (Scalar y) (reopen OpenWrite s1)))
  = non_soma_metadata (snd (set k (Scalar y) s)) /\
  get (snd (set k (Scalar y) s1)) k = Some y.
Proof.
  intros Hm Hk Hx Hy s1.
  assert (Hm1 : mode s1 = OpenWrite).
  { subst s1. destruct (decode_encode x Hx) as (r & He & _).
    unfold set. now rewrite Hm, He, Hk. }
  destruct (set_on_dict s k x Hm Hk Hx) as [_ H1].
  destruct (set_on_dict s k y Hm Hk Hy) as [_ H2].
  destruct (set_on_dict s1 k y Hm1 Hk Hy) as [_ H3].
  destruct (reopen_on_dict OpenWrite s1 Hm1) as (Hmr & Hr).
  destruct (set_on_dict (reopen OpenWrite s1) k y Hmr Hk Hy) as [_ H4].
  fold s1 in H1. split; [|split].
  - now rewrite H3, H2, H1, insert_insert_eq.
  - now rewrite H4, Hr, H2, H1, insert_insert_eq.
  - pose proof (non_soma_metadata_lookup (snd (set k (Scalar y) s1)) k) as Hl.
    rewrite Hk, H3, lookup_insert_eq in Hl. now symmetry.
Qed.

(** X16: a set followed by a delete of the same key, in one session or
    across a reopen, leaves what the delete alone would - the store as
    it was when the key was absent - and a set of another value after
    that delete, in the same session or in the next, makes the key
    present again with the new value. *)
Theorem set_then_delete (s : store) (k : string) (x y : scalar) :
  mode s = OpenWrite -> is_reserved k = false ->
  in_data_model x -> in_data_model y ->
  let s1 := snd (set k (Scalar x) s) in
  non_soma_metadata (snd (delete k s1)) = base.delete k (non_soma_metadata s) /\
  non_soma_metadata (snd (delete k (reopen OpenWrite s1)))
  = base.delete k (non_soma_metadata s) /\
  (contains s k = false ->
   non_soma_metadata (snd (delete k s1)) = non_soma_metadata s) /\
  non_soma_metadata (snd (set k (Scalar y) (snd (delete k s1))))
  = <[k := y]> (non_soma_metadata s) /\
  non_soma_metadata (snd (set k (Scalar y) (snd (delete k (reopen OpenWrite s1)))))
  = <[k := y]> (non_soma_metadata s) /\
  get (snd (set k (Scalar y) (snd (delete k (reopen OpenWrite s1))))) k = Some y.
Proof.
  intros Hm Hk Hx Hy s1.
  assert (Hm1 : mode s1 = OpenWrite).
  { subst s1. destruct (decode_encode x Hx) as (r & He & _).
    unfold set. now rewrite Hm, He, Hk. }
  destruct (set_on_dict s k x Hm Hk Hx) as [_ H1]. fold s1 in H1.
  destruct (delete_on_dict s1 k Hm1 Hk) as [_ H2].
  destruct (reopen_on_dict OpenWrite s1 Hm1) as (Hmr & Hr).
  destruct (delete_on_dict (reopen OpenWrite s1) k Hmr Hk) as [_ H3].
  assert (Hm2 : mode (snd (delete k s1)) = OpenWrite).
  { unfold delete. now rewrite Hm1, Hk. }
  assert (Hm3 : mode (snd (delete k (reopen OpenWrite s1))) = OpenWrite).
  { unfold delete. now rewrite Hmr, Hk. }
  destruct (set_on_dict (snd (delete k s1)) k y Hm2 Hk Hy) as [_ H4].
  destruct (set_on_dict (snd (delete k (reopen OpenWrite s1))) k y Hm3 Hk Hy)
    as [_ H5].
  split; [|split; [|split; [|split; [|split]]]].
  - now rewrite H2, H1, delete_insert_eq.
  - now rewrite H3, Hr, H1, delete_insert_eq.
  - intros Habs. rewrite H2, H1, delete_insert_eq.
    apply delete_id. rewrite non_soma_metadata_lookup, Hk.
    unfold contains in Habs.
    apply bool_decide_eq_false in Habs. unfold get.
    destruct (current s !! k); [exfalso; eauto | reflexivity].
  - rewrite H4, H2, H1, delete_insert_eq. apply insert_delete_eq.
  - rewrite H5, H3, Hr, H1, delete_insert_eq. apply insert_delete_eq.
  - pose proof (non_soma_metadata_lookup
                  (snd (set k (Scalar y) (snd (delete k (reopen OpenWrite s1))))) k)
      as Hl.
    rewrite Hk, H5, lookup_insert_eq in Hl. now symmetry.
Qed.

(** *** [update] *)

Lemma set_keeps_mode (s : store) (k : string) (v : value) :
  mode (snd (set k v s)) = mode s.
Proof.
  unfold set. destruct (mode s) eqn:Hm; try exact Hm.
  destruct (encode v); [|exact Hm].
  destruct (is_reserved k); exact Hm.
Qed.

(** X17: [update] with scalars under callers' keys succeeds and is the
    dict update of what [non_soma_metadata] shows, pair by pair in
    order. *)
Theorem update_is_dict_update (s : store) (kxs : list (string * scalar)) :
  mode s = OpenWrite ->
  (forall k x, In (k, x) kxs -> is_reserved k = false /\ in_data_model x) ->
  let kvs := List.map (fun kx => (fst kx, Scalar (snd kx))) kxs in
  fst (update kvs s) = Ok tt /\
  non_soma_metadata (snd (update kvs s))
  = fold_left (fun acc kx => <[fst kx := snd kx]> acc) kxs (non_soma_metadata s).
Proof.
  revert s. induction kxs as [|[k x] kxs IH]; intros s Hm Hall.
  - split; reflexivity.
  - destruct (Hall k x (or_introl eq_refl)) as [Hk Hx].
    destruct (set_on_dict s k x Hm Hk Hx) as [Hok Hset].
    cbn [List.map fst snd update fold_left].
    destruct (set k (Scalar x) s) as [r s1] eqn:Hs. cbn [fst snd] in Hok, Hset.
    subst r. rewrite <- Hset.
    apply IH.
    + pose proof (set_keeps_mode s k (Scalar x)) as Hmode.
      rewrite Hs in Hmode. cbn in Hmode. congruence.
    + intros k' x' Hin. apply Hall. now right.
Qed.

(** *** The theorems at the values of the tests *)

Lemma iterate_agrees_with_get_witness :
  In ("foobar", PyBool true) (iterate reopened) /\
  contains reopened "foobar" = true /\
  get reopened "foobar" = Some (PyBool true).
Proof.
  assert (Hin : In ("foobar", PyBool true) (iterate reopened))
    by (vm_compute; auto).
  split; [exact Hin|].
  exact (proj1 (iterate_agrees_with_get reopened "foobar") _ Hin).
Defined.

Lemma set_is_dict_assignment_witness :
  mode created = OpenWrite /\ is_reserved "foobar" = false /\
  in_data_model (PyBool true) /\
  fst (set "foobar" (Scalar (PyBool true)) created) = Ok tt /\
  non_soma_metadata (snd (set "foobar" (Scalar (PyBool true)) created))
  = <["foobar" := PyBool true]> (non_soma_metadata created).
Proof.
  split; [reflexivity|]. split; [reflexivity|]. split; [exact I|].
  destruct (set_is_dict_assignment created "foobar" (PyBool true)
              eq_refl eq_refl I) as (Hok & Hdict & _).
  split; [exact Hok | exact Hdict].
Defined.

Lemma delete_is_dict_deletion_witness :
  let s := snd (set "heres" (Scalar (PyStr "johnny")) created) in
  mode s = OpenWrite /\ is_reserved "heres" = false /\
  contains s "heres" = true /\
  non_soma_metadata s = {[ "heres" := PyStr "johnny" ]} /\
  fst (delete "heres" s) = Ok tt /\
  non_soma_metadata (snd (delete "heres" s))
  = base.delete "heres" (non_soma_metadata s) /\
  contains (snd (delete "heres" s)) "heres" = false.
Proof.
  intros s.
  assert (Hc : contains s "heres" = true) by (vm_compute; reflexivity).
  split; [reflexivity|]. split; [reflexivity|]. split; [exact Hc|].
  split; [vm_compute; reflexivity|].
  destruct (delete_is_dict_deletion s "heres" eq_refl eq_refl Hc)
    as (Hok & _ & Hdict & _ & Hgone & _).
  split; [exact Hok|]. split; [exact Hdict | exact Hgone].
Defined.

Lemma reopen_sees_what_was_written_witness :
  let s := snd (set "foobar" (Scalar (PyBool true)) created) in
  mode s = OpenWrite /\
  is_Some (staged s !! "foobar") /\
  persisted s !! "foobar" = None /\
  mode (reopen OpenRead s) = OpenRead /\
  non_soma_metadata (reopen OpenRead s) = non_soma_metadata s /\
  iterate (reopen OpenRead s) = iterate s /\
  (forall k, get (reopen OpenRead s) k = get s k /\
             contains (reopen OpenRead s) k = contains s k).
Proof.
  intros s.
  split; [reflexivity|]. split; [vm_compute; eauto|].
  split; [vm_compute; reflexivity|].
  apply reopen_sees_what_was_written. reflexivity.
Defined.

Lemma set_twice_last_wins_witness :
  mode created = OpenWrite /\ is_reserved "content" = false /\
  get (snd (set "content" (Scalar (PyStr "doubt"))
              (snd (set "content" (Scalar (PyStr "confidence")) created))))
    "content"
  = Some (PyStr "doubt").
Proof.
  split; [reflexivity|]. split; [reflexivity|].
  exact (proj2 (proj2
    (set_twice_last_wins created "content" (PyStr "confidence") (PyStr "doubt")
       eq_refl eq_refl I I))).
Defined.

Lemma set_then_delete_witness :
  let s1 := snd (set "hdyfn" (Scalar (PyStr "destruction")) created) in
  mode created = OpenWrite /\ is_reserved "hdyfn" = false /\
  contains created "hdyfn" = false /\
  non_soma_metadata (snd (delete "hdyfn" (reopen OpenWrite s1)))
  = base.delete "hdyfn" (non_soma_metadata created) /\
  non_soma_metadata (snd (delete "hdyfn" s1)) = non_soma_metadata created /\
  get (snd (set "hdyfn" (Scalar (PyStr "somebody new"))
              (snd (delete "hdyfn" (reopen OpenWrite s1))))) "hdyfn"
  = Some (PyStr "somebody new").
Proof.
  intros s1.
  assert (Habs : contains created "hdyfn" = false) by (vm_compute; reflexivity).
  split; [reflexivity|]. split; [reflexivity|]. split; [exact Habs|].
  destruct (set_then_delete created "hdyfn" (PyStr "destruction")
              (PyStr "somebody new") eq_refl eq_refl I I)
    as (_ & Hre & Hsame & _ & _ & Hget).
  split; [exact Hre|]. split; [exact (Hsame Habs) | exact Hget].
Defined.

Lemma update_is_dict_update_witness :
  mode created = OpenWrite /\
  fst (update [("stay", Scalar (PyStr "frosty")); ("my", Scalar (PyStr "friends"))]
         created) = Ok tt /\
  non_soma_metadata
    (snd (update [("stay", Scalar (PyStr "frosty")); ("my", Scalar (PyStr "friends"))]
            created))
  = <["my" := PyStr "friends"]> (<["stay" := PyStr "frosty"]> (non_soma_metadata created)).
Proof.
  split; [reflexivity|].
  apply (update_is_dict_update created
           [("stay", PyStr "frosty"); ("my", PyStr "friends")] eq_refl).
  intros k x [Heq|[Heq|[]]]; injection Heq as <- <-; split; (reflexivity || exact I).
Defined.

End MetadataSessions.

(* ===================================================================== *)
(** ** The pairwise matrix group and the storage *)
(* ===================================================================== *)

Module PairwiseGroupStorage.
Import PairwiseGroup.

(** *** Paths *)

Lemma basename_plain_result (p : string) :
  Py.contains_sep (Py.os_path_basename p) = false.
Proof.
  induction p as [|c p IH]; [reflexivity|].
  cbn [Py.os_path_basename].
  destruct (Ascii.eqb c "/") eqn:Hc; [exact IH|].
  destruct (existsb (Ascii.eqb "/") (list_ascii_of_string p)) eqn:Hp; [exact IH|].
  unfold Py.contains_sep. cbn [list_ascii_of_string existsb].
  rewrite Hp, Ascii.eqb_sym, Hc. reflexivity.
Qed.

Section Storage.
Context {Matrix Csr : Type}.
Implicit Types (st : state Matrix) (nm : string).

Ltac run :=
  unfold getitem, to_dict_of_csr, open, close, add_object,
    from_matrix, tiledb_group_getitem, tiledb_Group, try_pass,
    get_self, log, set_handle, set_groups, set_arrays, with_handle,
    bind, ret, raise;
  cbn [self groups arrays unwritable calls uri name parent row_dim_name
       col_dim_name tiledb_group fst snd open_mode_eqb].

(** *** [from_anndata] and the storage *)

(** X1: importing into a closed group touches nothing else: other
    groups keep their listings, members of this group under names that
    are not imported keep their entries, arrays at URIs no imported name
    is joined to keep their contents, and no group or array goes away. *)
Theorem from_anndata_keeps_the_rest (apm : list (string * Matrix))
    (dims : list string) st :
  tiledb_group (self st) = None ->
  let st' := snd (from_anndata apm dims st) in
  (forall u, u <> uri (self st) -> groups st' !! u = groups st !! u) /\
  (forall k, ~ In k (dict_keys apm) ->
     default ∅ (groups st' !! uri (self st)) !! k =
     default ∅ (groups st !! uri (self st)) !! k) /\
  (forall u, (forall k, In k (dict_keys apm) ->
                Py.os_path_join (uri (self st)) k <> u) ->
     arrays st' !! u = arrays st !! u) /\
  (forall u, is_Some (groups st !! u) -> is_Some (groups st' !! u)) /\
  (forall u, is_Some (arrays st !! u) -> is_Some (arrays st' !! u)).
Proof.
  intros _.
  destruct (PairwiseGroupFacts.from_anndata_frame apm dims st)
    as (_ & _ & _ & Hg & Hl & Ha & Hsg & Hsa & _).
  cbv zeta. auto.
Qed.

(** *** [to_dict_of_csr] *)

Lemma read_members_state (tocsr : array_data Matrix -> result Csr)
    (l : list (string * member)) :
  forall acc st, snd (read_members tocsr l acc st) = st.
Proof.
  induction l as [|[k e] l IH]; intros acc st; [reflexivity|].
  cbn [read_members]. unfold bind, tiledb_open.
  destruct (arrays st !! m_uri e) as [a|]; [|reflexivity].
  destruct (tocsr a) as [c|err]; [apply IH | reflexivity].
Qed.

(** X5: [to_dict_of_csr] changes nothing - not the group instance, the
    listings, the arrays or the calls made - whether it returns or
    raises. *)
Theorem to_dict_of_csr_reads_only (tocsr : array_data Matrix -> result Csr) st :
  snd (to_dict_of_csr tocsr st) = st.
Proof.
  unfold to_dict_of_csr, bind, get_self, try_pass, tiledb_Group.
  destruct (groups st !! uri (self st)) as [listing|]; [|reflexivity].
  apply read_members_state.
Qed.

Lemma read_members_result (tocsr : array_data Matrix -> result Csr)
    (l : list (string * member)) :
  forall acc st d,
    fst (read_members tocsr l acc st) = Ok d ->
    (forall key c, d !! key = Some c ->
       acc !! key = Some c \/
       exists k e a, In (k, e) l /\ Py.os_path_basename (m_uri e) = key /\
                     arrays st !! m_uri e = Some a /\ tocsr a = Ok c) /\
    (forall k e, In (k, e) l -> is_Some (d !! Py.os_path_basename (m_uri e))) /\
    (forall key, is_Some (acc !! key) -> is_Some (d !! key)).
Proof.
  induction l as [|[k e] l IH]; intros acc st d Hd.
  - cbn in Hd. injection Hd as <-. split; [auto|]. split; [intros ? ? []|auto].
  - cbn [read_members] in Hd. unfold bind, tiledb_open in Hd.
    destruct (arrays st !! m_uri e) as [a|] eqn:Ha; [|discriminate].
    destruct (tocsr a) as [c0|err] eqn:Hc; [|discriminate].
    destruct (IH _ _ _ Hd) as (Hfrom & Hall & Hkeep).
    split; [|split].
    + intros key c Hkey. destruct (Hfrom key c Hkey) as [Hacc|(k' & e' & a' & Hin & ?)].
      * destruct (string_dec (Py.os_path_basename (m_uri e)) key) as [Hk|Hk].
        -- rewrite <- Hk, lookup_insert_eq in Hacc. injection Hacc as <-.
           right. exists k, e, a. split; [now left | auto].
        -- rewrite lookup_insert_ne in Hacc by exact Hk. now left.
      * right. exists k', e', a'. split; [now right | assumption].
    + intros k' e' [Heq|Hin]; [|now apply (Hall k')].
      injection Heq as <- <-. apply Hkeep. rewrite lookup_insert_eq. eauto.
    + intros key Hkey. apply Hkeep.
      destruct (string_dec (Py.os_path_basename (m_uri e)) key) as [<-|Hk].
      * rewrite lookup_insert_eq. eauto.
      * now rewrite lookup_insert_ne.
Qed.

Lemma read_members_succeeds_iff (tocsr : array_data Matrix -> result Csr)
    (l : list (string * member)) :
  forall acc st,
    (exists d, fst (read_members tocsr l acc st) = Ok d) <->
    (forall k e, In (k, e) l ->
       exists a c, arrays st !! m_uri e = Some a /\ tocsr a = Ok c).
Proof.
  induction l as [|[k e] l IH]; intros acc st.
  - split; [intros _ ? ? [] | intros _; now exists acc].
  - cbn [read_members]. unfold bind, tiledb_open.
    destruct (arrays st !! m_uri e) as [a|] eqn:Ha.
    + destruct (tocsr a) as [c|err] eqn:Hc.
      * rewrite IH. split.
        -- intros Hl k' e' [Heq|Hin]; [|now apply (Hl k')].
           injection Heq as <- <-. exists a, c. now rewrite Ha.
        -- intros Hl k' e' Hin. apply (Hl k'). now right.
      * split; [intros [d Hd]; discriminate|].
        intros Hl. destruct (Hl k e (or_introl eq_refl)) as (a' & c & Ha' & Hc').
        rewrite Ha in Ha'. injection Ha' as <-. congruence.
    + split; [intros [d Hd]; discriminate|].
      intros Hl. destruct (Hl k e (or_introl eq_refl)) as (a' & c & Ha' & _).
      congruence.
Qed.

Lemma to_dict_of_csr_listed (tocsr : array_data Matrix -> result Csr) st
    (listing : gmap string member) :
  groups st !! uri (self st) = Some listing ->
  to_dict_of_csr tocsr st = read_members tocsr (map_to_list listing) ∅ st.
Proof.
  intros Hg. unfold to_dict_of_csr, bind, get_self, try_pass, tiledb_Group.
  now rewrite Hg.
Qed.

(** X6: on a group that exists, [to_dict_of_csr] returns a dict exactly
    when every listed member has an array at its URI that converts; a
    listed subgroup, or one array that does not convert, makes the whole
    export raise. *)
Theorem to_dict_of_csr_succeeds_iff (tocsr : array_data Matrix -> result Csr) st
    (listing : gmap string member) :
  groups st !! uri (self st) = Some listing ->
  (exists d, fst (to_dict_of_csr tocsr st) = Ok d) <->
  (forall k e, listing !! k = Some e ->
     exists a c, arrays st !! m_uri e = Some a /\ tocsr a = Ok c).
Proof.
  intros Hg. rewrite (to_dict_of_csr_listed tocsr st listing Hg).
  rewrite read_members_succeeds_iff. split.
  - intros H k e Hke. apply (H k). now apply list_elem_of_In, elem_of_map_to_list.
  - intros H k e Hke. apply (H k). now apply list_elem_of_In, elem_of_map_to_list in Hke.
Qed.

(** X7: the dict [to_dict_of_csr] returns is keyed by the basenames of
    the members' URIs, not by their names: every entry is the conversion
    of the array of a listed member whose URI has that basename, and the
    basename of every listed member's URI is a key. *)
Theorem to_dict_of_csr_keys (tocsr : array_data Matrix -> result Csr) st
    (listing : gmap string member) (d : gmap string Csr) :
  groups st !! uri (self st) = Some listing ->
  fst (to_dict_of_csr tocsr st) = Ok d ->
  (forall key c, d !! key = Some c ->
     exists k e a, listing !! k = Some e /\
                   Py.os_path_basename (m_uri e) = key /\
                   arrays st !! m_uri e = Some a /\ tocsr a = Ok c) /\
  (forall k e, listing !! k = Some e ->
     is_Some (d !! Py.os_path_basename (m_uri e))).
Proof.
  intros Hg. rewrite (to_dict_of_csr_listed tocsr st listing Hg). intros Hd.
  destruct (read_members_result tocsr _ _ _ _ Hd) as (Hfrom & Hall & _).
  split.
  - intros key c Hkey.
    destruct (Hfrom key c Hkey) as [Hacc|(k & e & a & Hin & Hrest)].
    + rewrite lookup_empty in Hacc. discriminate.
    + exists k, e, a. split; [|exact Hrest].
      now apply list_elem_of_In, elem_of_map_to_list in Hin.
  - intros k e Hke. apply (Hall k).
    now apply list_elem_of_In, elem_of_map_to_list.
Qed.

(** X18: no key of the dict [to_dict_of_csr] returns holds a separator;
    a matrix imported under a name with a separator in it is not
    exported under that name. *)
Theorem to_dict_of_csr_keys_are_plain (tocsr : array_data Matrix -> result Csr)
    st (d : gmap string Csr) (key : string) :
  fst (to_dict_of_csr tocsr st) = Ok d ->
  is_Some (d !! key) ->
  Py.contains_sep key = false.
Proof.
  intros Hd [c Hc].
  destruct (groups st !! uri (self st)) as [listing|] eqn:Hg.
  - rewrite (to_dict_of_csr_listed tocsr st listing Hg) in Hd.
    destruct (read_members_result tocsr _ _ _ _ Hd) as (Hfrom & _).
    destruct (Hfrom key c Hc) as [Hacc|(k & e & a & _ & <- & _)].
    + rewrite lookup_empty in Hacc. discriminate.
    + apply basename_plain_result.
  - unfold to_dict_of_csr, bind, get_self, try_pass, tiledb_Group in Hd.
    rewrite Hg in Hd. cbn in Hd. injection Hd as <-.
    rewrite lookup_empty in Hc. discriminate.
Qed.

(** *** [__getitem__] *)

Ltac by_cases st nm :=
  let u := fresh "u" in
  let h := fresh "h" in
  let gs := fresh "gs" in
  let listing := fresh "listing" in
  let Hg := fresh "Hg" in
  let Hm := fresh "Hm" in
  destruct st as [[u ? ? ? ? h] gs ? ? ?];
  destruct h as [[]|]; run;
  destruct (gs !! u) as [listing|] eqn:Hg;
  cbn [self groups arrays unwritable calls uri name parent row_dim_name
       col_dim_name tiledb_group fst snd open_mode_eqb];
  rewrite ?Hg;
  try (destruct (listing !! nm) as [[? []]|] eqn:Hm);
  cbn [self groups arrays unwritable calls uri name parent row_dim_name
       col_dim_name tiledb_group fst snd open_mode_eqb m_type m_uri].

(** X8: [__getitem__] never writes: the listings and the arrays are the
    same after the lookup as before, whatever it returns or raises - a
    lookup in a group that does not exist does not create it. *)
Theorem getitem_writes_nothing nm st :
  groups (snd (getitem nm st)) = groups st /\
  arrays (snd (getitem nm st)) = arrays st.
Proof. by_cases st nm; split; reflexivity. Qed.

(** X9: a handle [__getitem__] returns is an [AnnotationPairwiseMatrix]
    of the name asked for, with the group as parent, and its URI is the
    URI under which the group lists that name as an array. *)
Theorem getitem_handle_is_listed nm st (h : matrix_handle) :
  fst (getitem nm st) = Ok (Some h) ->
  exists listing,
    groups st !! uri (self st) = Some listing /\
    listing !! nm = Some {| m_uri := h_uri h; m_type := TArray |} /\
    h_class h = AnnotationPairwiseMatrix /\
    h_name h = nm /\
    h_parent h = uri (self st).
Proof.
  by_cases st nm; intros Hh; try discriminate; injection Hh as <-;
    eexists; (split; [reflexivity|]); cbn; auto.
Qed.

(** X10: [__getitem__] raises one of its internal errors only for a
    name that the group lists with a kind other than array. *)
Theorem getitem_internal_error nm st (msg : string) :
  fst (getitem nm st) = Raise (InternalError msg) ->
  exists listing o,
    groups st !! uri (self st) = Some listing /\
    listing !! nm = Some o /\
    m_type o <> TArray.
Proof.
  by_cases st nm; intros Hh; try discriminate;
    eexists _, _; (split; [reflexivity|]); (split; [eassumption|]);
    cbn; discriminate.
Qed.

End Storage.

(** *** The theorems on the bulk-import scenario *)

Lemma from_anndata_keeps_the_rest_witness :
  tiledb_group (self imported) = None /\
  (forall k,
     ~ In k (dict_keys [("m3", M1)]) ->
     default ∅ (groups (snd (from_anndata [("m3", M1)] axis_labels imported))
                  !! uri (self imported)) !! k =
     default ∅ (groups imported !! uri (self imported)) !! k).
Proof.
  assert (Hc : tiledb_group (self imported) = None) by (vm_compute; reflexivity).
  split; [exact Hc|].
  exact (proj1 (proj2
    (from_anndata_keeps_the_rest [("m3", M1)] axis_labels imported Hc))).
Defined.

Lemma to_dict_of_csr_succeeds_iff_witness :
  let listing : gmap string member :=
    {[ "m1" := {| m_uri := "soma/obsp/m1"; m_type := TArray |};
       "sub" := {| m_uri := "soma/obsp/sub"; m_type := TGroup |} ]} in
  groups with_subgroup !! uri (self with_subgroup) = Some listing /\
  listing !! "sub" = Some {| m_uri := "soma/obsp/sub"; m_type := TGroup |} /\
  arrays with_subgroup !! "soma/obsp/sub" = None /\
  ~ (exists d, fst (to_dict_of_csr (fun a => Ok (a_matrix a)) with_subgroup) = Ok d).
Proof.
  intros listing.
  assert (Hg : groups with_subgroup !! uri (self with_subgroup) = Some listing)
    by (vm_compute; reflexivity).
  assert (Hs : listing !! "sub" = Some {| m_uri := "soma/obsp/sub"; m_type := TGroup |})
    by (vm_compute; reflexivity).
  assert (Ha : arrays with_subgroup !! "soma/obsp/sub" = None)
    by (vm_compute; reflexivity).
  split; [exact Hg|]. split; [exact Hs|]. split; [exact Ha|].
  intros Hd.
  destruct (proj1 (to_dict_of_csr_succeeds_iff
                     (fun a => Ok (a_matrix a)) with_subgroup listing Hg) Hd
              "sub" _ Hs) as (a & c & Hsome & _).
  cbn [m_uri] in Hsome. congruence.
Defined.

Lemma to_dict_of_csr_keys_witness :
  let listing : gmap string member :=
    {[ "m1" := {| m_uri := "soma/obsp/m1"; m_type := TArray |};
       "m2" := {| m_uri := "soma/obsp/m2"; m_type := TArray |} ]} in
  let d : gmap string (list (list Z)) := {[ "m1" := M1; "m2" := M2 ]} in
  groups imported !! uri (self imported) = Some listing /\
  fst (to_dict_of_csr (fun a => Ok (a_matrix a)) imported) = Ok d /\
  (forall k e, listing !! k = Some e ->
     is_Some (d !! Py.os_path_basename (m_uri e))).
Proof.
  intros listing d.
  assert (Hg : groups imported !! uri (self imported) = Some listing)
    by (vm_compute; reflexivity).
  assert (Hd : fst (to_dict_of_csr (fun a => Ok (a_matrix a)) imported) = Ok d)
    by (vm_compute; reflexivity).
  split; [exact Hg|]. split; [exact Hd|].
  exact (proj2 (to_dict_of_csr_keys (fun a => Ok (a_matrix a)) imported
                  listing d Hg Hd)).
Defined.

Lemma to_dict_of_csr_keys_are_plain_witness :
  let d : gmap string (list (list Z)) := {[ "m1" := M1; "m2" := M2 ]} in
  fst (to_dict_of_csr (fun a => Ok (a_matrix a)) imported) = Ok d /\
  is_Some (d !! "m2") /\
  Py.contains_sep "m2" = false.
Proof.
  intros d.
  assert (Hd : fst (to_dict_of_csr (fun a => Ok (a_matrix a)) imported) = Ok d)
    by (vm_compute; reflexivity).
  assert (Hk : is_Some (d !! "m2")) by (vm_compute; eauto).
  split; [exact Hd|]. split; [exact Hk|].
  exact (to_dict_of_csr_keys_are_plain (fun a => Ok (a_matrix a)) imported
           d "m2" Hd Hk).
Defined.

Lemma getitem_handle_is_listed_witness :
  let h :=
    {| h_class := AnnotationPairwiseMatrix; h_uri := "soma/obsp/m1";
       h_name := "m1"; h_row_dim_name := "obs_id_i";
       h_col_dim_name := "obs_id_j"; h_parent := "soma/obsp" |} in
  fst (getitem "m1" imported) = Ok (Some h) /\
  exists listing,
    groups imported !! uri (self imported) = Some listing /\
    listing !! "m1" = Some {| m_uri := h_uri h; m_type := TArray |} /\
    h_class h = AnnotationPairwiseMatrix /\
    h_name h = "m1" /\
    h_parent h = uri (self imported).
Proof.
  intros h.
  assert (Hh : fst (getitem "m1" imported) = Ok (Some h))
    by (vm_compute; reflexivity).
  split; [exact Hh|].
  exact (getitem_handle_is_listed "m1" imported h Hh).
Defined.

Lemma getitem_internal_error_witness :
  fst (getitem "sub" with_subgroup) =
    Raise (InternalError
      "Internal error: found group element where array element was expected.") /\
  exists listing o,
    groups with_subgroup !! uri (self with_subgroup) = Some listing /\
    listing !! "sub" = Some o /\
    m_type o <> TArray.
Proof.
  assert (Hh : fst (getitem "sub" with_subgroup) =
    Raise (InternalError
      "Internal error: found group element where array element was expected."))
    by (vm_compute; reflexivity).
  split; [exact Hh|].
  exact (getitem_internal_error "sub" with_subgroup _ Hh).
Defined.

End PairwiseGroupStorage.
